(** * prompt_toolkit: the protocol core, embedded and checked

    A shallow embedding of the byte- and character-level state machines of
    prompt_toolkit (Telnet protocol parser, ANSI escape decoder, VT100 input
    parser), of the scroll logic of [ScrollablePane] and of the
    generator-to-async-generator bridge, followed by the properties that the
    design document states about them.

    The generators of the source ([d = yield] coroutines) are modelled as
    explicit machines: a state names the [yield] at which the coroutine is
    suspended and carries its live local variables; [send] resumes it with
    one value and runs it to the next [yield]. *)

From Stdlib Require Import ZArith List String Ascii Bool Lia.
From Stdlib.Strings Require Import Byte.
From stdpp Require Import gmap strings list.
Import ListNotations.
Local Open Scope Z_scope.

(** ** A fragment of the Python run time *)

Module Py.

(** The exceptions that the modelled code can raise. *)
Inductive exn : Type :=
| TypeError
| ValueError
| NameError
| IndexError.

(** A computation that returns a value or raises. *)
Inductive result (A : Type) : Type :=
| Ok (a : A)
| Raise (e : exn).
Arguments Ok {A} a.
Arguments Raise {A} e.

Definition bind {A B : Type} (m : result A) (f : A -> result B) : result B :=
  match m with
  | Ok a => f a
  | Raise e => Raise e
  end.

(** Values that flow through the Telnet parser: iterating over a [bytes]
    object yields [int]s, whereas the protocol constants are [bytes]
    objects of length one. *)
Inductive value : Type :=
| PyInt (n : Z)
| PyBytes (bs : list byte).

Definition bytes_eqb (a b : list byte) : bool :=
  bool_decide (map Byte.to_N a = map Byte.to_N b).

(** [a == b]: an [int] never equals a [bytes] object. *)
Definition eq (a b : value) : bool :=
  match a, b with
  | PyInt x, PyInt y => Z.eqb x y
  | PyBytes x, PyBytes y => bytes_eqb x y
  | _, _ => false
  end.

(** [a in (b1, ..., bn)] *)
Definition in_tuple (a : value) (t : list value) : bool :=
  existsb (eq a) t.

(** [a + b] *)
Definition add (a b : value) : result value :=
  match a, b with
  | PyInt x, PyInt y => Ok (PyInt (x + y))
  | PyBytes x, PyBytes y => Ok (PyBytes (x ++ y))
  | _, _ => Raise TypeError
  end.

(** One element of the argument of [bytes([...])]: an [int] in
    [range(256)]. *)
Definition byte_of_value (v : value) : result byte :=
  match v with
  | PyInt n =>
      if (0 <=? n) && (n <? 256) then
        match Byte.of_N (Z.to_N n) with
        | Some b => Ok b
        | None => Raise ValueError
        end
      else Raise ValueError
  | PyBytes _ => Raise TypeError
  end.

(** [bytes(l)] for a list [l] *)
Fixpoint bytes_of_list (l : list value) : result (list byte) :=
  match l with
  | [] => Ok []
  | v :: l' =>
      bind (byte_of_value v) (fun b =>
      bind (bytes_of_list l') (fun bs => Ok (b :: bs)))
  end.

(** [data.startswith(prefix)] on a [bytes] object: the prefix must itself
    be [bytes]. *)
Fixpoint bytes_prefix (p data : list byte) : bool :=
  match p, data with
  | [], _ => true
  | _ :: _, [] => false
  | x :: p', y :: data' => N.eqb (Byte.to_N x) (Byte.to_N y) && bytes_prefix p' data'
  end.

Definition startswith (data : list byte) (prefix : value) : result bool :=
  match prefix with
  | PyBytes p => Ok (bytes_prefix p data)
  | PyInt _ => Raise TypeError
  end.

(** The [int] that iteration over [bytes] yields for one byte. *)
Definition int_of_byte (b : byte) : value := PyInt (Z.of_N (Byte.to_N b)).

End Py.

(** ** contrib/telnet/protocol.py *)

Module Telnet.
Import Py.

(** Modelled from the spec: [int2byte] is called by protocol.py but is
    defined nowhere in the repository sources; the design document calls
    IAC "byte 255" and the handlers take [data: bytes] and concatenate
    the constants with [+], so [int2byte(n)] is the [bytes] object holding
    the single byte [n]. *)
Definition int2byte (b : byte) : value := PyBytes [b].

Definition NOP := int2byte x00.
Definition SGA := int2byte x03.
Definition IAC := int2byte xff.
Definition DO := int2byte xfd.
Definition DONT := int2byte xfe.
Definition LINEMODE := int2byte x22.
Definition SB := int2byte xfa.
Definition WILL := int2byte xfb.
Definition WONT := int2byte xfc.
Definition MODE := int2byte x01.
Definition SE := int2byte xf0.
Definition ECHO := int2byte x01.
Definition NAWS := int2byte x1f.
Definition SUPPRESS_GO_AHEAD := int2byte x03.
Definition TTYPE := int2byte x18.
Definition SEND := int2byte x01.
Definition IS := int2byte x00.

(** What the parser writes to its logger. *)
Inductive log_record : Type :=
| LogDo (data : value)
| LogDont (data : value)
| LogWill (data : value)
| LogWont (data : value)
| LogWindowSize (columns rows : Z)
| LogInvalidNaws (data : list byte)
| LogTerminalType (terminal_type : string)
| LogInvalidTtype (data : list byte)
| LogNegotiating (data : list byte)
| LogUnknownNegotiation (data : list byte)
| LogUnknownIac (d2 : value).

(** The observable effects of the parser: the three callbacks and the
    logger. *)
Inductive event : Type :=
| data_received_callback (data : value)
| size_received_callback (rows columns : Z)
| ttype_received_callback (terminal_type : string)
| logger (r : log_record).

(** Effectful code: the trace of effects so far, and either the value
    returned or the exception raised after them. *)
Definition M (A : Type) : Type := (list event * (exn + A))%type.

#[global] Instance M_ret : MRet M := fun A a => ([], inr a).
#[global] Instance M_bind : MBind M := fun A B f m =>
  match m with
  | (t, inl e) => (t, inl e)
  | (t, inr a) => let '(t', r) := f a in (t ++ t', r)
  end.

Definition raise {A : Type} (e : exn) : M A := ([], inl e).
Definition emit (ev : event) : M unit := ([ev], inr tt).
Definition lift {A : Type} (r : result A) : M A :=
  match r with
  | Ok a => mret a
  | Raise e => raise e
  end.

Definition do_received (data : value) : M unit :=
  emit (logger (LogDo data));;
  if eq data ECHO then
    r ← lift (add WILL ECHO); emit (data_received_callback r)
  else if eq data SUPPRESS_GO_AHEAD then
    r ← lift (add WILL SUPPRESS_GO_AHEAD); emit (data_received_callback r)
  else
    r ← lift (add WONT data); emit (data_received_callback r).

Definition dont_received (data : value) : M unit :=
  emit (logger (LogDont data));;
  r ← lift (add WONT data); emit (data_received_callback r).

Definition will_received (data : value) : M unit :=
  emit (logger (LogWill data));;
  if in_tuple data [ECHO; SUPPRESS_GO_AHEAD] then
    r ← lift (add DO data); emit (data_received_callback r)
  else
    r ← lift (add DONT data); emit (data_received_callback r).

Definition wont_received (data : value) : M unit :=
  emit (logger (LogWont data));;
  r ← lift (add DONT data); emit (data_received_callback r).

(** The unsigned big-endian 16-bit number of [struct.unpack('!H', ...)]. *)
Definition unpack_H (hi lo : byte) : Z :=
  256 * Z.of_N (Byte.to_N hi) + Z.of_N (Byte.to_N lo).

Definition naws (data : list byte) : M unit :=
  match data with
  | [c1; c0; r1; r0] =>
      let columns := unpack_H c1 c0 in
      let rows := unpack_H r1 r0 in
      emit (logger (LogWindowSize columns rows));;
      emit (size_received_callback rows columns)
  | _ => emit (logger (LogInvalidNaws data))
  end.

(** [data.decode('ascii', errors='ignore')] *)
Fixpoint decode_ascii_ignore (data : list byte) : string :=
  match data with
  | [] => EmptyString
  | b :: data' =>
      if (Byte.to_N b <? 128)%N
      then String (ascii_of_byte b) (decode_ascii_ignore data')
      else decode_ascii_ignore data'
  end.

Definition ttype (data : list byte) : M unit :=
  b ← lift (startswith data IS);
  if b : bool then
    let terminal_type := decode_ascii_ignore (tl data) in
    emit (logger (LogTerminalType terminal_type));;
    emit (ttype_received_callback terminal_type)
  else emit (logger (LogInvalidTtype data)).

Definition negotiate (data : list byte) : M unit :=
  emit (logger (LogNegotiating data));;
  b ← lift (startswith data NAWS);
  if b : bool then naws (tl data)
  else
    b' ← lift (startswith data TTYPE);
    if b' : bool then ttype (tl data)
    else emit (logger (LogUnknownNegotiation data)).

(** The [yield] at which [_parse_coroutine] is suspended, with the local
    variables that are live there. *)
Inductive coroutine : Type :=
| YieldD                                            (* d = yield *)
| YieldD2                                           (* d2 = yield *)
| YieldD3 (d2 : value)                              (* d3 = yield, command *)
| YieldSubD3 (subnegotiation : list value)          (* d3 = yield, in SB *)
| YieldSubD4 (subnegotiation : list value) (d3 : value). (* d4 = yield *)

(** [self._parser.send(v)]: resume the coroutine with [v] and run it up
    to the next [yield]. *)
Definition send (st : coroutine) (v : value) : M coroutine :=
  match st with
  | YieldD =>
      let d := v in
      if eq d IAC then mret YieldD2
      else
        bs ← lift (bytes_of_list [d]);
        emit (data_received_callback (PyBytes bs));;
        mret YieldD
  | YieldD2 =>
      let d2 := v in
      if eq d2 IAC then
        emit (data_received_callback IAC);; mret YieldD
      else if in_tuple d2 [DO; DONT; WILL; WONT] then mret (YieldD3 d2)
      else if eq d2 SB then mret (YieldSubD3 [])
      else emit (logger (LogUnknownIac d2));; mret YieldD
  | YieldD3 d2 =>
      let d3 := v in
      (if eq d2 DO then do_received d3
       else if eq d2 DONT then dont_received d3
       else if eq d2 WILL then will_received d3
       else if eq d2 WONT then wont_received d3
       else mret tt);;
      mret YieldD
  | YieldSubD3 subnegotiation =>
      let d3 := v in
      if eq d3 IAC then mret (YieldSubD4 subnegotiation d3)
      else mret (YieldSubD3 (subnegotiation ++ [d3]))
  | YieldSubD4 subnegotiation d3 =>
      let d4 := v in
      if eq d4 SE then
        bs ← lift (bytes_of_list subnegotiation);
        negotiate bs;;
        mret YieldD
      else mret (YieldSubD3 (subnegotiation ++ [d3; d4]))
  end.

(** The coroutine after [__init__] has primed it with [send(None)]. *)
Definition init : coroutine := YieldD.

(** [for v in vs: self._parser.send(v)] *)
Fixpoint send_all (st : coroutine) (vs : list value) : M coroutine :=
  match vs with
  | [] => mret st
  | v :: vs' => st' ← send st v; send_all st' vs'
  end.

(** [feed(data)]: iterating over the [bytes] object [data] binds [b] to
    an [int]. *)
Definition feed (st : coroutine) (data : list byte) : M coroutine :=
  send_all st (map int_of_byte data).

End Telnet.

(** ** Python [str]: code points below 256 *)

Module PyStr.
Import Py.
Local Open Scope string_scope.

(** A [str] is modelled by [string]: its characters are the code points
    0..255, on which the classifications below are those of Python. *)
Definition code (c : ascii) : N := N_of_ascii c.

Definition in_range (lo hi : N) (c : ascii) : bool :=
  ((lo <=? code c) && (code c <=? hi))%N.

(** [c.isalpha()] *)
Definition isalpha (c : ascii) : bool :=
  in_range 65 90 c || in_range 97 122 c
  || in_range 170 170 c || in_range 181 181 c || in_range 186 186 c
  || in_range 192 214 c || in_range 216 246 c || in_range 248 255 c.

(** The decimal digits, the class [\d] of [re] and the digits of [int()]. *)
Definition isdecimal (c : ascii) : bool := in_range 48 57 c.

(** The white space that [int()] skips around the digits: the ASCII white
    space and, of the other code points below 256, U+0085 and U+00A0. The
    separators U+001C to U+001F are not skipped. *)
Definition int_isspace (c : ascii) : bool :=
  in_range 9 13 c || in_range 32 32 c || in_range 133 133 c || in_range 160 160 c.

(** Truth value of a [str]. *)
Definition truthy (s : string) : bool :=
  match s with
  | EmptyString => false
  | String _ _ => true
  end.

Fixpoint lstrip (l : list ascii) : list ascii :=
  match l with
  | [] => []
  | c :: l' => if int_isspace c then lstrip l' else l
  end.

Definition strip (l : list ascii) : list ascii := rev (lstrip (rev (lstrip l))).

(** Digits separated by single underscores. *)
Fixpoint digits (acc : Z) (after_digit : bool) (l : list ascii) : option Z :=
  match l with
  | [] => if after_digit then Some acc else None
  | c :: l' =>
      if isdecimal c then digits (10 * acc + (Z.of_N (code c) - 48)) true l'
      else if Ascii.eqb c "_" then
        if after_digit then digits acc false l' else None
      else None
  end.

(** [sys.get_int_max_str_digits()], as it is by default. *)
Definition int_max_str_digits : nat := 4300.

(** [int(s)] for a [str] in base ten: surrounding white space, an optional
    sign, digits; more than [int_max_str_digits] digits are refused. *)
Definition int (s : string) : result Z :=
  let stripped := strip (list_ascii_of_string s) in
  let r :=
    match stripped with
    | c :: l =>
        if Ascii.eqb c "+" then digits 0 false l
        else if Ascii.eqb c "-" then option_map Z.opp (digits 0 false l)
        else digits 0 false (c :: l)
    | [] => None
    end in
  match r with
  | Some n =>
      if (int_max_str_digits <? length (List.filter isdecimal stripped))%nat
      then Raise ValueError
      else Ok n
  | None => Raise ValueError
  end.

(** [s.split(sep)] for a separator of one character. *)
Fixpoint split_aux (sep : ascii) (cur : string) (s : string) : list string :=
  match s with
  | EmptyString => [cur]
  | String c s' =>
      if Ascii.eqb c sep then cur :: split_aux sep EmptyString s'
      else split_aux sep (cur ++ String c EmptyString) s'
  end.

Definition split (s : string) (sep : ascii) : list string := split_aux sep EmptyString s.

(** [sep.join(parts)] *)
Fixpoint join (sep : string) (parts : list string) : string :=
  match parts with
  | [] => EmptyString
  | [p] => p
  | p :: parts' => p ++ sep ++ join sep parts'
  end.

Definition startswith_char (s : string) (c : ascii) : bool :=
  match s with
  | String c' _ => Ascii.eqb c' c
  | EmptyString => false
  end.

Fixpoint endswith_char (s : string) (c : ascii) : bool :=
  match s with
  | EmptyString => false
  | String c' EmptyString => Ascii.eqb c' c
  | String _ s' => endswith_char s' c
  end.

(** [s[:-1]] *)
Fixpoint drop_last (s : string) : string :=
  match s with
  | EmptyString => EmptyString
  | String _ EmptyString => EmptyString
  | String c s' => String c (drop_last s')
  end.

(** [s[1:]] *)
Definition drop_first (s : string) : string :=
  match s with
  | EmptyString => EmptyString
  | String _ s' => s'
  end.

(** [s[1:-1]] *)
Definition slice_1_m1 (s : string) : string := drop_last (drop_first s).

(** [s.replace(old, new)] for [old] and [new] of one character. *)
Fixpoint replace (s : string) (old new : ascii) : string :=
  match s with
  | EmptyString => EmptyString
  | String c s' => String (if Ascii.eqb c old then new else c) (replace s' old new)
  end.

Definition ESC : ascii := "027"%char.
Definition SOH : ascii := "001"%char.
Definition STX : ascii := "002"%char.

End PyStr.

(** ** formatted_text/ansi.py *)

Module Ansi.
Import Py PyStr.
Local Open Scope string_scope.

(** The attributes of an [ANSI] object. *)
Record ANSI : Type := mkANSI {
  value : string;
  _formatted_text : list (string * string);
  _color : option string;
  _bgcolor : option string;
  _bold : bool;
  _underline : bool;
  _strike : bool;
  _italic : bool;
  _blink : bool;
  _reverse : bool;
  _hidden : bool
}.

(** The local variables of [_parse_corot] at its [yield]. The list
    [formatted_text] is the object [self._formatted_text] itself. *)
Record corot : Type := mkCorot {
  style : string;
  text : string;
  in_escape_sequence : bool;
  escape_sequence : string;
  zero_width_escape_sequence : bool
}.

Definition append_fragment (self : ANSI) (fragment : string * string) : ANSI :=
  mkANSI (value self) (_formatted_text self ++ [fragment])
    (_color self) (_bgcolor self) (_bold self) (_underline self) (_strike self)
    (_italic self) (_blink self) (_reverse self) (_hidden self).

Definition set_color (self : ANSI) (c : option string) : ANSI :=
  mkANSI (value self) (_formatted_text self)
    c (_bgcolor self) (_bold self) (_underline self) (_strike self)
    (_italic self) (_blink self) (_reverse self) (_hidden self).

Definition set_bgcolor (self : ANSI) (c : option string) : ANSI :=
  mkANSI (value self) (_formatted_text self)
    (_color self) c (_bold self) (_underline self) (_strike self)
    (_italic self) (_blink self) (_reverse self) (_hidden self).

Definition set_bold (self : ANSI) (b : bool) : ANSI :=
  mkANSI (value self) (_formatted_text self)
    (_color self) (_bgcolor self) b (_underline self) (_strike self)
    (_italic self) (_blink self) (_reverse self) (_hidden self).

Definition set_underline (self : ANSI) (b : bool) : ANSI :=
  mkANSI (value self) (_formatted_text self)
    (_color self) (_bgcolor self) (_bold self) b (_strike self)
    (_italic self) (_blink self) (_reverse self) (_hidden self).

Definition set_strike (self : ANSI) (b : bool) : ANSI :=
  mkANSI (value self) (_formatted_text self)
    (_color self) (_bgcolor self) (_bold self) (_underline self) b
    (_italic self) (_blink self) (_reverse self) (_hidden self).

Definition set_italic (self : ANSI) (b : bool) : ANSI :=
  mkANSI (value self) (_formatted_text self)
    (_color self) (_bgcolor self) (_bold self) (_underline self) (_strike self)
    b (_blink self) (_reverse self) (_hidden self).

Definition set_blink (self : ANSI) (b : bool) : ANSI :=
  mkANSI (value self) (_formatted_text self)
    (_color self) (_bgcolor self) (_bold self) (_underline self) (_strike self)
    (_italic self) b (_reverse self) (_hidden self).

Definition set_reverse (self : ANSI) (b : bool) : ANSI :=
  mkANSI (value self) (_formatted_text self)
    (_color self) (_bgcolor self) (_bold self) (_underline self) (_strike self)
    (_italic self) (_blink self) b (_hidden self).

Definition set_hidden (self : ANSI) (b : bool) : ANSI :=
  mkANSI (value self) (_formatted_text self)
    (_color self) (_bgcolor self) (_bold self) (_underline self) (_strike self)
    (_italic self) (_blink self) (_reverse self) b.

(** The assignments of the branch [attr == 0]. *)
Definition reset_attributes (self : ANSI) : ANSI :=
  mkANSI (value self) (_formatted_text self)
    None None false false false false false false false.

(** The list of this name in styles/base.py. *)
Definition styles_base_ANSI_COLOR_NAMES : list string :=
  ["ansidefault"; "ansiblack"; "ansired"; "ansigreen"; "ansiyellow"; "ansiblue";
   "ansimagenta"; "ansicyan"; "ansigray"; "ansibrightblack"; "ansibrightred";
   "ansibrightgreen"; "ansibrightyellow"; "ansibrightblue"; "ansibrightmagenta";
   "ansibrightcyan"; "ansiwhite"].

Section Decoder.

(** ansi.py reads a global [ANSI_COLOR_NAMES] that it neither defines nor
    imports. The binding of that name in the module is a parameter: [None]
    when the name is unbound (the module as it is written), [Some l] when
    it is bound to the list [l]. *)
Variable ANSI_COLOR_NAMES : option (list string).

(** [ANSI_COLOR_NAMES[i]] for [0 <= i] *)
Definition color_name (i : Z) : result string :=
  match ANSI_COLOR_NAMES with
  | None => Raise NameError
  | Some l =>
      match nth_error l (Z.to_nat i) with
      | Some n => Ok n
      | None => Raise IndexError
      end
  end.

(** One turn of the loop [for attr in attrs.split(';')]. *)
Definition apply_attr (self : ANSI) (attr : string) : result ANSI :=
  if negb (truthy attr) then Ok self
  else
    bind (int attr) (fun attr =>
    if (attr =? 0)%Z then Ok (reset_attributes self)
    else if (attr =? 1)%Z then Ok (set_bold self true)
    else if (attr =? 3)%Z then Ok (set_italic self true)
    else if (attr =? 4)%Z then Ok (set_underline self true)
    else if (attr =? 5)%Z then Ok (set_blink self true)
    else if (attr =? 7)%Z then Ok (set_reverse self true)
    else if (attr =? 8)%Z then Ok (set_hidden self true)
    else if (attr =? 9)%Z then Ok (set_strike self true)
    else if ((30 <=? attr) && (attr <=? 37))%Z then
      bind (color_name (attr - 30)%Z) (fun n => Ok (set_color self (Some ("ansi" ++ n))))
    else if ((40 <=? attr) && (attr <=? 47))%Z then
      bind (color_name (attr - 40)%Z) (fun n => Ok (set_bgcolor self (Some ("ansi" ++ n))))
    else if ((90 <=? attr) && (attr <=? 97))%Z then
      bind (color_name (attr - 90)%Z) (fun n => Ok (set_color self (Some ("ansibright" ++ n))))
    else if ((100 <=? attr) && (attr <=? 107))%Z then
      bind (color_name (attr - 100)%Z) (fun n => Ok (set_bgcolor self (Some ("ansibright" ++ n))))
    else Ok self).

Fixpoint apply_attrs (self : ANSI) (attrs : list string) : result ANSI :=
  match attrs with
  | [] => Ok self
  | attr :: attrs' => bind (apply_attr self attr) (fun self' => apply_attrs self' attrs')
  end.

Definition _select_graphic_rendition (self : ANSI) (attrs : string) : result ANSI :=
  let attrs :=
    if startswith_char attrs "[" && endswith_char attrs "m"
    then slice_1_m1 attrs else attrs in
  apply_attrs self (split attrs ";").

(** [parser.send(char)]: one turn of the [while True] loop of
    [_parse_corot]. No turn assigns [style]. *)
Definition send (st : corot) (self : ANSI) (char : ascii) : result (corot * ANSI) :=
  if in_escape_sequence st then
    let escape_sequence := escape_sequence st ++ String char EmptyString in
    if isalpha char || Ascii.eqb char "~" then
      bind (_select_graphic_rendition self escape_sequence) (fun self' =>
      Ok (mkCorot (style st) (text st) false EmptyString (zero_width_escape_sequence st),
          self'))
    else
      Ok (mkCorot (style st) (text st) true escape_sequence
            (zero_width_escape_sequence st), self)
  else if zero_width_escape_sequence st then
    if Ascii.eqb char STX then
      Ok (mkCorot (style st) EmptyString false (escape_sequence st) false,
          append_fragment self ("[ZeroWidthEscape]", text st))
    else
      Ok (mkCorot (style st) (text st ++ String char EmptyString) false
            (escape_sequence st) true, self)
  else if Ascii.eqb char SOH then
    if truthy (text st) then
      Ok (mkCorot (style st) EmptyString false (escape_sequence st) true,
          append_fragment self (style st, text st))
    else
      Ok (mkCorot (style st) (text st) false (escape_sequence st) true, self)
  else if Ascii.eqb char ESC then
    if truthy (text st) then
      Ok (mkCorot (style st) EmptyString true (escape_sequence st) false,
          append_fragment self (style st, text st))
    else
      Ok (mkCorot (style st) (text st) true (escape_sequence st) false, self)
  else
    Ok (mkCorot (style st) (text st ++ String char EmptyString) false
          (escape_sequence st) false, self).

(** The coroutine after [parser.send(None)]. *)
Definition corot_init : corot := mkCorot EmptyString EmptyString false EmptyString false.

(** [for c in value: parser.send(c)] *)
Fixpoint send_all (st : corot) (self : ANSI) (s : string) : result (corot * ANSI) :=
  match s with
  | EmptyString => Ok (st, self)
  | String c s' => bind (send st self c) (fun '(st', self') => send_all st' self' s')
  end.

(** [ANSI(value)]: the loop of [_parse_corot] has no exit, so the statements
    that follow it never run, and [__init__] returns once [value] is used
    up. *)
Definition __init__ (value : string) : result ANSI :=
  let self := mkANSI value [] None None false false false false false false false in
  bind (send_all corot_init self value) (fun '(_, self') => Ok self').

Definition __pt_formatted_text__ (self : ANSI) : list (string * string) :=
  _formatted_text self.

Definition _create_style_string (self : ANSI) : string :=
  let parts : list string := [] in
  let parts := match _color self with
               | Some c => if truthy c then (parts ++ [c])%list else parts
               | None => parts end in
  let parts := match _bgcolor self with
               | Some c => if truthy c then (parts ++ [("bg:" ++ c)%string])%list else parts
               | None => parts end in
  let parts := if _bold self then (parts ++ ["bold"])%list else parts in
  let parts := if _underline self then (parts ++ ["underline"])%list else parts in
  let parts := if _italic self then (parts ++ ["italic"])%list else parts in
  let parts := if _blink self then (parts ++ ["blink"])%list else parts in
  let parts := if _reverse self then (parts ++ ["reverse"])%list else parts in
  let parts := if _hidden self then (parts ++ ["hidden"])%list else parts in
  let parts := if _strike self then (parts ++ ["strike"])%list else parts in
  join " " parts.







(** The built-in [str.format] and [str %], taken as they are: they return
    the formatted string or raise. *)
Variable str_format : string -> list string -> list (string * string) -> result string.
Variable str_mod : string -> list string -> result string.




End Decoder.


(** The string ["\x1b[31mred\x1b[0m plain"]. *)
Definition red_plain : string := String ESC "[31mred" ++ String ESC "[0m plain".

(** The string ["\x1b[A"] (cursor up). *)
Definition cursor_up : string := String ESC "[A".

End Ansi.

(** ** input/vt100_parser.py *)

Module Vt100.
Import PyStr.
Local Open Scope string_scope.

(** Regular expressions, as far as the four patterns of the module need
    them. *)
Inductive re : Type :=
| Void
| Eps
| Class (p : ascii -> bool)
| Cat (r1 r2 : re)
| Alt (r1 r2 : re)
| Star (r : re).

Definition Lit (c : ascii) : re := Class (Ascii.eqb c).
Definition Opt (r : re) : re := Alt r Eps.
Definition Plus (r : re) : re := Cat r (Star r).

Fixpoint nullable (r : re) : bool :=
  match r with
  | Void => false
  | Eps => true
  | Class _ => false
  | Cat r1 r2 => nullable r1 && nullable r2
  | Alt r1 r2 => nullable r1 || nullable r2
  | Star _ => true
  end.

(** The derivative of [r] by the character [c]. *)
Fixpoint deriv (c : ascii) (r : re) : re :=
  match r with
  | Void => Void
  | Eps => Void
  | Class p => if p c then Eps else Void
  | Cat r1 r2 =>
      if nullable r1 then Alt (Cat (deriv c r1) r2) (deriv c r2)
      else Cat (deriv c r1) r2
  | Alt r1 r2 => Alt (deriv c r1) (deriv c r2)
  | Star r1 => Cat (deriv c r1) (Star r1)
  end.

(** [re.compile('^' + r + '\\Z').match(s)]: the whole of [s] matches. *)
Fixpoint matches (r : re) (s : string) : bool :=
  match s with
  | EmptyString => nullable r
  | String c s' => matches (deriv c r) s'
  end.

(** [re.escape('\x1b[')] *)
Definition esc_bracket : re := Cat (Lit ESC) (Lit "[").
(** [\d] *)
Definition digit : re := Class isdecimal.
(** [[\d;]] *)
Definition digit_or_semicolon : re := Class (fun c => isdecimal c || Ascii.eqb c ";").
(** [.]: any character but the newline *)
Definition dot : re := Class (fun c => negb (Ascii.eqb c "010")).

(** ['^' + re.escape('\x1b[') + '\\d+;\\d+R\\Z'] *)
Definition _cpr_response_re : re :=
  Cat esc_bracket (Cat (Plus digit) (Cat (Lit ";") (Cat (Plus digit) (Lit "R")))).

(** ['^' + re.escape('\x1b[') + '(<?[\\d;]+[mM]|M...)\\Z'] *)
Definition _mouse_event_re : re :=
  Cat esc_bracket
    (Alt (Cat (Opt (Lit "<"))
            (Cat (Plus digit_or_semicolon) (Alt (Lit "m") (Lit "M"))))
         (Cat (Lit "M") (Cat dot (Cat dot dot)))).

(** ['^' + re.escape('\x1b[') + '[\\d;]*\\Z'] *)
Definition _cpr_response_prefix_re : re :=
  Cat esc_bracket (Star digit_or_semicolon).

(** ['^' + re.escape('\x1b[') + '(<?[\\d;]*|M.{0,2})\\Z'] *)
Definition _mouse_event_prefix_re : re :=
  Cat esc_bracket
    (Alt (Cat (Opt (Lit "<")) (Star digit_or_semicolon))
         (Cat (Lit "M") (Opt (Cat dot (Opt dot))))).

(** Modelled from the spec: keys.py is not among the sources. The parser
    itself names [Keys.CPRResponse] and [Keys.Vt100MouseEvent]; the design
    document names the Up and the Escape key; every other member is
    [OtherKey] with its name. A member of [Keys] is a non-empty [str], and
    so true. *)
Inductive Keys : Type :=
| Escape
| Up
| CPRResponse
| Vt100MouseEvent
| OtherKey (name : string).

(** A value of the dictionary [ANSI_SEQUENCES]: [Keys | tuple[Keys, ...]]. *)
Inductive seq_value : Type :=
| One (k : Keys)
| Many (ks : list Keys).

(** Truth value of a dictionary value: a tuple is true when not empty. *)
Definition value_truthy (v : seq_value) : bool :=
  match v with
  | One _ => true
  | Many [] => false
  | Many (_ :: _) => true
  end.

(** The first argument of [KeyPress]: a member of [Keys] or a [str]. *)
Inductive key : Type :=
| KeysKey (k : Keys)
| StrKey (s : string).

Record KeyPress : Type := mkKeyPress { key_of : key; data : string }.

(** The first argument of [_call_handler]: [str | Keys | tuple[Keys, ...]]. *)
Inductive handler_key : Type :=
| HStr (s : string)
| HKeys (k : Keys)
| HTuple (ks : list Keys).

Definition of_value (v : seq_value) : handler_key :=
  match v with
  | One k => HKeys k
  | Many ks => HTuple ks
  end.

(** [_call_handler(key, insert_text)], as the list of the calls of
    [feed_key_callback] that it makes. *)
Definition call_one (k : key) (insert_text : string) : list KeyPress :=
  if truthy insert_text then [mkKeyPress k insert_text] else [].

Definition _call_handler (key : handler_key) (insert_text : string) : list KeyPress :=
  match key with
  | HTuple ks => flat_map (fun k => call_one (KeysKey k) insert_text) ks
  | HKeys k => call_one (KeysKey k) insert_text
  | HStr s => call_one (StrKey s) insert_text
  end.

(** [s[0]] and [s[1:]] of a non-empty [s] *)
Definition first_char (s : string) : string :=
  match s with
  | String c _ => String c EmptyString
  | EmptyString => EmptyString
  end.

Section Parser.

(** The dictionary of ansi_escape_sequences.py, which is not among the
    sources. *)
Variable ANSI_SEQUENCES : gmap string seq_value.

(** [_IS_PREFIX_OF_LONGER_MATCH_CACHE[prefix]]: the value that
    [__missing__] computes; the cache only remembers it. *)
Definition is_prefix_of_longer_match (prefix : string) : bool :=
  if matches _cpr_response_prefix_re prefix || matches _mouse_event_prefix_re prefix
  then true
  else
    existsb
      (fun '(k, v) => String.prefix prefix k && negb (String.eqb k prefix) && value_truthy v)
      (map_to_list ANSI_SEQUENCES).

Definition _get_match (prefix : string) : option seq_value :=
  match ANSI_SEQUENCES !! prefix with
  | Some v => Some v
  | None =>
      if matches _cpr_response_re prefix then Some (One CPRResponse)
      else if matches _mouse_event_re prefix then Some (One Vt100MouseEvent)
      else None
  end.

(** One turn of the [while True] loop of [_input_parser_generator] from the
    statement [if prefix:] to its end, entered with [retry] false: the
    keys handed to the callback, and the new [prefix] and [retry]. *)
Definition turn (prefix : string) (flush : bool) : list KeyPress * string * bool :=
  let '(keys, prefix', retry) :=
    if truthy prefix then
      let is_prefix := is_prefix_of_longer_match prefix in
      let match_ := _get_match prefix in
      let is_prefix := if flush then false else is_prefix in
      match match_ with
      | Some m => (_call_handler (of_value m) prefix, EmptyString, false)
      | None =>
          if is_prefix && negb flush then ([], prefix, true)
          else (_call_handler (HStr (first_char prefix)) (first_char prefix),
                drop_first prefix, true)
      end
    else ([], prefix, false) in
  (keys, prefix', retry || (flush && truthy prefix')).

(** The coroutine from the statement [if prefix:] up to its next [yield]:
    a turn that leaves [retry] set is followed by a turn that reads no
    character and has [flush] false. [None]: no [yield] within [fuel]
    turns. *)
Fixpoint resume (fuel : nat) (prefix : string) (flush : bool)
  : option (list KeyPress * string) :=
  match fuel with
  | O => None
  | S fuel' =>
      let '(keys, prefix', retry) := turn prefix flush in
      if retry then
        '(keys', prefix'') ← resume fuel' prefix' false;
        Some ((keys ++ keys')%list, prefix'')
      else Some (keys, prefix')
  end.

(** [self._input_parser.send(c)] for a character, from the [prefix] held
    at the [yield]. *)
Definition send (fuel : nat) (prefix : string) (c : ascii) :=
  resume fuel (prefix ++ String c EmptyString) false.

(** [self._input_parser.send(_Flush())] *)
Definition flush (fuel : nat) (prefix : string) :=
  resume fuel prefix true.

(** [feed(data)] *)
Fixpoint feed (fuel : nat) (prefix : string) (data : string)
  : option (list KeyPress * string) :=
  match data with
  | EmptyString => Some ([], prefix)
  | String c data' =>
      '(keys, prefix') ← send fuel prefix c;
      '(keys', prefix'') ← feed fuel prefix' data';
      Some ((keys ++ keys')%list, prefix'')
  end.

(** [feed_and_flush(data)] *)
Definition feed_and_flush (fuel : nat) (prefix : string) (data : string)
  : option (list KeyPress * string) :=
  '(keys, prefix') ← feed fuel prefix data;
  '(keys', prefix'') ← flush fuel prefix';
  Some ((keys ++ keys')%list, prefix'').

(** [for chunk in chunks: feed(chunk)] *)
Fixpoint feed_chunks (fuel : nat) (prefix : string) (chunks : list string)
  : option (list KeyPress * string) :=
  match chunks with
  | [] => Some ([], prefix)
  | chunk :: chunks' =>
      '(keys, prefix') ← feed fuel prefix chunk;
      '(keys', prefix'') ← feed_chunks fuel prefix' chunks';
      Some ((keys ++ keys')%list, prefix'')
  end.

End Parser.

(** The state of the coroutine after [_start_parser]. *)
Definition start : string := EmptyString.

(** The strings ["\x1b"] and ["\x1b[A"]. *)
Definition esc : string := String ESC EmptyString.
Definition esc_bracket_A : string := String ESC "[A".

(** [''.join(chunks)] *)
Definition whole (chunks : list string) : string :=
  fold_right String.append EmptyString chunks.

(** Two dictionaries to run the parser on: one that binds the cursor-up
    sequence only, one that also binds the escape character itself. *)
Definition table_up : gmap string seq_value := {[ esc_bracket_A := One Up ]}.
Definition table_escape_up : gmap string seq_value :=
  <[ esc := One Escape ]> table_up.

End Vt100.

(** ** layout/scrollable_pane.py *)

Module Scrollable_pane.

Definition MAX_AVAILABLE_HEIGHT : Z := 10000.

(** Modelled from the spec: [ScrollOffsets], [WritePosition] and [Point]
    are declared in modules that are not among the files at hand
    ([layout.containers], [layout.screen], [data_structures]); they are
    records of integers, and only the fields that the pane reads are kept. *)
Record ScrollOffsets : Type := mkScrollOffsets { top : Z; bottom : Z }.

Record WritePosition : Type :=
  mkWritePosition { xpos : Z; ypos : Z; width : Z; height : Z }.

Record Point : Type := mkPoint { x : Z; y : Z }.

(** The attributes of a pane that its scroll logic reads. A filter is
    represented by the boolean it returns when called. *)
Record ScrollablePane : Type := mkScrollablePane {
  scroll_offsets : ScrollOffsets;
  keep_cursor_visible : bool;
  keep_focused_window_visible : bool;
  max_available_height : Z;
  show_scrollbar : bool;
  display_arrows : bool;
  vertical_scroll : Z
}.

(** [self.vertical_scroll = v] *)
Definition set_vertical_scroll (self : ScrollablePane) (v : Z) : ScrollablePane :=
  mkScrollablePane (scroll_offsets self) (keep_cursor_visible self)
    (keep_focused_window_visible self) (max_available_height self)
    (show_scrollbar self) (display_arrows self) v.

(** [ScrollablePane.__init__]; [scroll_offsets or ScrollOffsets(top=1, bottom=1)]. *)
Definition __init__ (offsets : option ScrollOffsets)
    (cursor_visible focused_window_visible : bool) (max_height : Z)
    (scrollbar arrows : bool) : ScrollablePane :=
  mkScrollablePane
    (match offsets with Some o => o | None => mkScrollOffsets 1 1 end)
    cursor_visible focused_window_visible max_height scrollbar arrows 0.

(** [ScrollablePane._clip_point_to_visible_area] *)
Definition _clip_point_to_visible_area (self : ScrollablePane) (point : Point)
    (write_position : WritePosition) : Point :=
  mkPoint
    (Z.max 0 (Z.min (x point) (width write_position - 1)))
    (Z.max 0 (Z.min (y point - vertical_scroll self) (height write_position - 1))).

(** The [WritePosition] that [_copy_over_write_positions] stores for a
    window whose position on the temp screen is [position]. *)
Definition new_position (self : ScrollablePane) (write_position position : WritePosition)
  : WritePosition :=
  mkWritePosition
    (xpos position + xpos write_position)
    (ypos position - vertical_scroll self + ypos write_position)
    (width position)
    (height position).

(** [ScrollablePane._copy_over_write_positions]: the dictionary
    [screen.visible_windows_to_write_positions] after the loop. Windows are
    named by numbers. *)
Definition _copy_over_write_positions (self : ScrollablePane)
    (screen temp_screen : gmap nat WritePosition) (write_position : WritePosition)
  : gmap nat WritePosition :=
  map_fold (fun window position acc =>
              <[ window := new_position self write_position position ]> acc)
           screen temp_screen.

(** The cursor rule of [_make_window_visible] ([if self.keep_cursor_visible()]). *)
Definition cursor_rule (self : ScrollablePane) (visible_height virtual_height cursor_y : Z)
  : ScrollablePane :=
  if keep_cursor_visible self then
    let top := top (scroll_offsets self) in
    let bottom := bottom (scroll_offsets self) in
    if cursor_y <? vertical_scroll self + top then
      set_vertical_scroll self (Z.max 0 (cursor_y - top))
    else if cursor_y >=? vertical_scroll self + visible_height - bottom then
      set_vertical_scroll self
        (Z.min (virtual_height - visible_height)
               (cursor_y - visible_height + bottom + 1))
    else self
  else self.

(** The window rule of [_make_window_visible]
    ([if self.keep_focused_window_visible()]). *)
Definition window_rule (self : ScrollablePane) (visible_height : Z)
    (visible_win_write_pos : WritePosition) : ScrollablePane :=
  if keep_focused_window_visible self then
    let win_top := ypos visible_win_write_pos in
    let win_bottom := ypos visible_win_write_pos + height visible_win_write_pos in
    if win_top <? vertical_scroll self then
      set_vertical_scroll self win_top
    else if win_bottom >? vertical_scroll self + visible_height then
      set_vertical_scroll self (win_bottom - visible_height)
    else self
  else self.

(** [ScrollablePane._make_window_visible]; the pane after the call. *)
Definition _make_window_visible (self : ScrollablePane)
    (visible_height virtual_height : Z) (visible_win_write_pos : WritePosition)
    (cursor_position : option Point) : ScrollablePane :=
  match cursor_position with
  | None => self
  | Some cursor_position =>
      let cursor_y := y cursor_position in
      let self := cursor_rule self visible_height virtual_height cursor_y in
      window_rule self visible_height visible_win_write_pos
  end.

(** [visible_height] as [write_to_screen] computes it. *)
Definition visible_height (self : ScrollablePane) (write_position : WritePosition)
    (temp_screen_height : Z) : Z :=
  Z.min (height write_position) (temp_screen_height - vertical_scroll self).

(** [ScrollablePane.write_to_screen], as far as the pane itself is
    concerned: [temp_screen_height] and [cursor_position] stand for
    [temp_screen.height] and [temp_screen.get_cursor_position(self.content)]
    after the content has been rendered on the temp screen. The copies to
    the real screen and the scrollbar read [vertical_scroll] and do not
    assign it. The last statement passes [write_position], the place of the
    pane on the real screen, where [_make_window_visible] expects the place
    of the focused window on the temp screen. *)
Definition write_to_screen (self : ScrollablePane) (temp_screen_height : Z)
    (cursor_position : option Point) (write_position : WritePosition)
  : ScrollablePane :=
  let visible_height := visible_height self write_position temp_screen_height in
  _make_window_visible self visible_height temp_screen_height write_position
    cursor_position.

(** A pane as [ScrollablePane(content)] builds it, and the same with
    [keep_focused_window_visible=False]. *)
Definition default_pane : ScrollablePane :=
  __init__ None true true MAX_AVAILABLE_HEIGHT true true.
Definition cursor_only_pane : ScrollablePane :=
  __init__ None true false MAX_AVAILABLE_HEIGHT true true.

End Scrollable_pane.

(** ** eventloop/async_generator.py *)

Module Async_generator.

Definition DEFAULT_BUFFER_SIZE : Z := 1000.

(** How a thread or a coroutine ends: it returns, it raises, or it waits
    for something that never comes. *)
Inductive ending : Type :=
| Returns
| Raises (e : Py.exn)
| Blocks.

Section Bridge.
Context {T : Type}.

(** What the queue holds: an item of the iterable or an instance of [_Done]. *)
Inductive entry : Type :=
| Item (item : T)
| _Done.

(** [queue.Queue(maxsize)]: a queue whose [maxsize] is zero or less is
    unbounded. *)
Record Queue : Type := mkQueue { maxsize : Z; queue : list entry }.

Definition full (q : Queue) : bool :=
  (0 <? maxsize q) && (maxsize q <=? Z.of_nat (length (queue q))).

(** [q.put(e, block=False)]; [None] is the exception [Full]. *)
Definition put_nowait (q : Queue) (e : entry) : option Queue :=
  if full q then None else Some (mkQueue (maxsize q) (queue q ++ [e])).

(** The [for] loop of [producer]. On [Full] the handler evaluates
    [time.sleep]; the module does not import [time], so that the handler
    raises [NameError], which leaves the loop. *)
Fixpoint producer_loop (q : Queue) (iterable : list T) : Queue * option Py.exn :=
  match iterable with
  | [] => (q, None)
  | item :: iterable' =>
      match put_nowait q (Item item) with
      | Some q' => producer_loop q' iterable'
      | None => (q, Some Py.NameError)
      end
  end.

(** [producer]: the loop, then [finally: queue.put(_Done(), block=True)].
    Nothing takes from the queue while [producer] runs, so that a blocking
    [put] on a full queue does not return. *)
Definition producer (q : Queue) (iterable : list T) : Queue * ending :=
  let '(q', exc) := producer_loop q iterable in
  match put_nowait q' _Done with
  | None => (q', Blocks)
  | Some q'' => (q'', match exc with Some e => Raises e | None => Returns end)
  end.

(** The [while True] loop of [generator_to_async_generator] on the content
    of the queue: the items yielded and how the generator ends. [queue.get]
    on an empty queue blocks, and the producer is over. *)
Fixpoint consumer (content : list entry) : list T * ending :=
  match content with
  | [] => ([], Blocks)
  | _Done :: _ => ([], Returns)
  | Item item :: content' =>
      let '(items, e) := consumer content' in (item :: items, e)
  end.

(** [generator_to_async_generator(get_iterable, buffer_size)] for an
    iterable that yields the elements of a list and stops: the items that
    the async generator yields and how it ends. [await
    run_in_executor_with_context(producer)] comes before the loop, which
    starts when [producer] has returned. *)
Definition generator_to_async_generator (get_iterable : list T) (buffer_size : Z)
  : list T * ending :=
  let q := mkQueue buffer_size [] in
  match producer q get_iterable with
  | (q', Returns) => consumer (queue q')
  | (_, e) => ([], e)
  end.

End Bridge.

Arguments entry : clear implicits.
Arguments Queue : clear implicits.

End Async_generator.

(** * Properties *)

(** ** The Telnet parser *)

Section TelnetFacts.
Import Py Telnet.

Lemma byte_to_N_inj (a b : byte) : Byte.to_N a = Byte.to_N b -> a = b.
Proof.
  intros H. apply (f_equal Byte.of_N) in H. rewrite !Byte.of_to_N in H. congruence.
Qed.

(** An [int] compares unequal to every protocol constant. *)
Lemma telnet_int_ne_constant (b c : byte) : eq (int_of_byte b) (int2byte c) = false.
Proof. reflexivity. Qed.

Lemma telnet_bytes_of_int (b : byte) : bytes_of_list [int_of_byte b] = Ok [b].
Proof.
  unfold bytes_of_list, byte_of_value, int_of_byte.
  pose proof (Byte.to_N_bounded b) as H.
  replace (0 <=? Z.of_N (Byte.to_N b)) with true by (symmetry; apply Z.leb_le; lia).
  replace (Z.of_N (Byte.to_N b) <? 256) with true by (symmetry; apply Z.ltb_lt; lia).
  rewrite N2Z.id, Byte.of_to_N. reflexivity.
Qed.

(** In the state in which [feed] finds the coroutine, one byte of [feed]
    is handed to the data callback and the state is kept. *)
Lemma telnet_send_int (b : byte) :
  send YieldD (int_of_byte b) = ([data_received_callback (PyBytes [b])], inr YieldD).
Proof.
  unfold send, IAC. rewrite telnet_int_ne_constant.
  rewrite telnet_bytes_of_int. reflexivity.
Qed.

(** Whatever is fed, every byte is reported as plain data and the command
    states are never entered. *)
Lemma telnet_feed_passthrough (data : list byte) :
  feed init data =
    (map (fun b => data_received_callback (PyBytes [b])) data, inr YieldD).
Proof.
  unfold feed, init. induction data as [|b data IH]; [reflexivity|].
  cbn [map send_all]. unfold mbind at 1, M_bind.
  rewrite telnet_send_int. rewrite IH. reflexivity.
Qed.

(** The handlers themselves, had they been reached with a [bytes] option:
    the reply is the two bytes command + option. *)
Lemma telnet_do_received_reply (X : byte) :
  do_received (int2byte X) =
    ([logger (LogDo (int2byte X));
      data_received_callback
        (PyBytes [if bytes_eqb [X] [x01] || bytes_eqb [X] [x03] then xfb else xfc; X])],
     inr tt).
Proof.
  unfold do_received, ECHO, SUPPRESS_GO_AHEAD, int2byte, eq.
  destruct (bytes_eqb [X] [x01]) eqn:E1.
  - apply bool_decide_eq_true in E1. cbn in E1.
    assert (X = x01) as -> by (apply byte_to_N_inj; injection E1; intros ->; reflexivity). reflexivity.
  - destruct (bytes_eqb [X] [x03]) eqn:E3; [|reflexivity].
    apply bool_decide_eq_true in E3. cbn in E3.
    assert (X = x03) as -> by (apply byte_to_N_inj; injection E3; intros ->; reflexivity). reflexivity.
Qed.

(** [naws] on a payload of four bytes reports (rows, columns); on any other
    length it only logs. *)
Lemma telnet_naws_four (c1 c0 r1 r0 : byte) :
  naws [c1; c0; r1; r0] =
    ([logger (LogWindowSize (unpack_H c1 c0) (unpack_H r1 r0));
      size_received_callback (unpack_H r1 r0) (unpack_H c1 c0)], inr tt).
Proof. reflexivity. Qed.

Lemma telnet_naws_other (data : list byte) :
  length data <> 4%nat -> naws data = ([logger (LogInvalidNaws data)], inr tt).
Proof.
  intros H. destruct data as [|a [|b [|c [|d [|e data]]]]]; try reflexivity.
  exfalso. apply H. reflexivity.
Qed.

(** Driven with the [bytes] objects that its comparisons expect, the
    coroutine keeps both bytes of an embedded IAC IAC pair, and the
    conversion of the collected list by [bytes(...)] then raises. *)
Lemma telnet_coroutine_keeps_both_iac :
  send_all init [IAC; SB; NAWS; IAC; IAC] = ([], inr (YieldSubD3 [NAWS; IAC; IAC]))
  /\ send_all init [IAC; SB; NAWS; IAC; IAC; IAC; SE] = ([], inl TypeError).
Proof. split; reflexivity. Qed.

(** C1. An option negotiation command fed to [feed] is not answered: for
    every command byte [c] (DO, DONT, WILL, WONT among them) and every
    option byte [X], the three bytes IAC c X come back as three plain
    data-received invocations, and the parser is left in its initial state. *)
Theorem telnet_command_is_passed_as_data (c X : byte) :
  feed init [xff; c; X] =
    ([data_received_callback (PyBytes [xff]);
      data_received_callback (PyBytes [c]);
      data_received_callback (PyBytes [X])], inr YieldD).
Proof. apply telnet_feed_passthrough. Qed.

(** C7. For every byte stream, [feed] never hands a sub-negotiation payload
    to [negotiate]: the frame IAC SB NAWS 0 80 0 24 IAC SE is reported byte
    by byte as plain data, and no trace of [feed] holds the record that
    [negotiate] logs on entry. *)
Theorem telnet_feed_never_negotiates :
  feed init [xff; xfa; x1f; x00; x50; x00; x18; xff; xf0] =
    (map (fun b => data_received_callback (PyBytes [b]))
       [xff; xfa; x1f; x00; x50; x00; x18; xff; xf0], inr YieldD)
  /\ forall (data payload : list byte),
       ~ In (logger (LogNegotiating payload)) (fst (feed init data)).
Proof.
  split; [apply telnet_feed_passthrough|].
  intros data payload. rewrite telnet_feed_passthrough. cbn [fst].
  intros H. apply in_map_iff in H. destruct H as (b & Hb & _). discriminate.
Qed.

(** C9. The NAWS frame for 80 columns and 24 rows fed to [feed] invokes the
    data callback nine times and the window-size callback not at all; no
    byte stream makes [feed] invoke the window-size callback. *)
Theorem telnet_feed_never_reports_size :
  fst (feed init [xff; xfa; x1f; x00; x50; x00; x18; xff; xf0]) =
    [data_received_callback (PyBytes [xff]); data_received_callback (PyBytes [xfa]);
     data_received_callback (PyBytes [x1f]); data_received_callback (PyBytes [x00]);
     data_received_callback (PyBytes [x50]); data_received_callback (PyBytes [x00]);
     data_received_callback (PyBytes [x18]); data_received_callback (PyBytes [xff]);
     data_received_callback (PyBytes [xf0])]
  /\ forall (data : list byte) (rows columns : Z),
       ~ In (size_received_callback rows columns) (fst (feed init data)).
Proof.
  split; [reflexivity|].
  intros data rows columns. rewrite telnet_feed_passthrough. cbn [fst].
  intros H. apply in_map_iff in H. destruct H as (b & Hb & _). discriminate.
Qed.

End TelnetFacts.

(** ** The ANSI decoder *)

Section AnsiFacts.
Import Py PyStr Ansi.
Local Open Scope string_scope.

(** C2. Decoding ["\x1b[31mred\x1b[0m plain"]: as ansi.py is written (the
    name [ANSI_COLOR_NAMES] unbound) the constructor raises; with the name
    bound to the list of styles/base.py it returns the single fragment
    [("", "red")]; and whatever the name is bound to, a decoder that returns
    has produced exactly that one fragment, with the empty style and without
    the trailing text [" plain"]. *)
Theorem ansi_red_plain_one_unstyled_fragment :
  __init__ None red_plain = Raise NameError
  /\ match __init__ (Some styles_base_ANSI_COLOR_NAMES) red_plain with
     | Ok self => __pt_formatted_text__ self = [("", "red")]
     | Raise _ => False
     end
  /\ forall names : option (list string),
       match __init__ names red_plain with
       | Ok self => __pt_formatted_text__ self = [("", "red")]
       | Raise _ => True
       end.
Proof.
  split; [reflexivity|]. split; [reflexivity|].
  intros [[|a [|b l]]|]; vm_compute; exact eq_refl || exact I.
Qed.

(** C8. Constructing the decoder from ["\x1b[A"] raises [ValueError],
    whatever [ANSI_COLOR_NAMES] is bound to: the sequence is handed to
    [_select_graphic_rendition], which calls [int] on ["[A"]. *)
Theorem ansi_cursor_up_raises (names : option (list string)) :
  __init__ names cursor_up = Raise ValueError.
Proof. reflexivity. Qed.









(** ** The fragments of a decoder *)

(** [_select_graphic_rendition] does not touch the list of fragments. *)
Lemma ansi_apply_attr_fragments names self attr self' :
  apply_attr names self attr = Ok self' ->
  _formatted_text self' = _formatted_text self.
Proof.
  unfold apply_attr, color_name.
  destruct (negb (truthy attr)); [intros H; injection H as <-; reflexivity|].
  destruct (int attr) as [n|e]; cbn [bind]; [|discriminate].
  repeat match goal with
         | |- context [if ?b then _ else _] => destruct b
         end;
    try (intros H; injection H as <-; reflexivity);
    destruct names as [l|]; cbn [bind]; try discriminate;
    match goal with
    | |- context [nth_error ?l ?i] => destruct (nth_error l i)
    end; cbn [bind]; try discriminate;
    intros H; injection H as <-; reflexivity.
Qed.

Lemma ansi_apply_attrs_fragments names attrs : forall self self',
  apply_attrs names self attrs = Ok self' ->
  _formatted_text self' = _formatted_text self.
Proof.
  induction attrs as [|attr attrs IH]; intros self self' H; cbn [apply_attrs] in H.
  - injection H as <-. reflexivity.
  - destruct (apply_attr names self attr) as [self1|e] eqn:E; cbn [bind] in H;
      [|discriminate].
    rewrite (IH _ _ H). apply (ansi_apply_attr_fragments _ _ _ _ E).
Qed.

(** One character adds at most one fragment, whose style is the [style] of
    the coroutine or the zero-width marker; [style] stays as it is. *)
Lemma ansi_send_fragments names st self c st' self' :
  send names st self c = Ok (st', self') ->
  style st' = style st
  /\ exists frags,
       _formatted_text self' = (_formatted_text self ++ frags)%list
       /\ Forall (fun f => fst f = style st \/ fst f = "[ZeroWidthEscape]") frags.
Proof.
  unfold send, _select_graphic_rendition.
  destruct (in_escape_sequence st).
  - destruct (isalpha c || Ascii.eqb c "~").
    + match goal with
      | |- context [apply_attrs names self ?l] =>
          destruct (apply_attrs names self l) as [self1|e] eqn:E
      end; cbn [bind]; [|discriminate].
      intros H. injection H as <- <-. split; [reflexivity|].
      exists []. rewrite app_nil_r.
      split; [apply (ansi_apply_attrs_fragments _ _ _ _ E) | constructor].
    + intros H. injection H as <- <-. split; [reflexivity|].
      exists []. rewrite app_nil_r. split; [reflexivity | constructor].
  - repeat match goal with
           | |- context [if ?b then _ else _] => destruct b
           end;
      intros H; injection H as <- <-; (split; [reflexivity|]);
      first [ exists []; rewrite app_nil_r; split; [reflexivity | constructor]
            | eexists [_]; split; [reflexivity|]; constructor; [cbn; auto | constructor] ].
Qed.

Lemma ansi_send_all_fragments names s : forall st self st' self',
  send_all names st self s = Ok (st', self') ->
  exists frags,
    _formatted_text self' = (_formatted_text self ++ frags)%list
    /\ Forall (fun f => fst f = style st \/ fst f = "[ZeroWidthEscape]") frags.
Proof.
  induction s as [|c s IH]; intros st self st' self' H; cbn [send_all] in H.
  - injection H as <- <-. exists []. rewrite app_nil_r. split; [reflexivity | constructor].
  - destruct (send names st self c) as [[st1 self1]|e] eqn:E; cbn [bind] in H;
      [|discriminate].
    destruct (ansi_send_fragments _ _ _ _ _ _ E) as (Hst & f1 & Hf1 & HF1).
    destruct (IH _ _ _ _ H) as (f2 & Hf2 & HF2).
    exists (f1 ++ f2)%list. rewrite Hf2, Hf1, app_assoc. split; [reflexivity|].
    apply Forall_app. split; [exact HF1|]. rewrite Hst in HF2. exact HF2.
Qed.

(** Every fragment of a decoder has the empty style or the zero-width
    marker. *)
Lemma ansi_init_fragments names (v : string) :
  match __init__ names v with
  | Ok self =>
      Forall (fun f => fst f = "" \/ fst f = "[ZeroWidthEscape]")
        (__pt_formatted_text__ self)
  | Raise _ => True
  end.
Proof.
  unfold __init__.
  match goal with
  | |- context [send_all names corot_init ?o v] =>
      destruct (send_all names corot_init o v) as [[st' self']|e] eqn:E
  end; cbn [bind]; [|exact I].
  destruct (ansi_send_all_fragments _ _ _ _ _ _ E) as (frags & Hf & HF).
  unfold __pt_formatted_text__. rewrite Hf. exact HF.
Qed.


(** ** Escaped arguments *)








End AnsiFacts.

(** ** The VT100 input parser *)

Section Vt100Facts.
Import PyStr Vt100.
Local Open Scope string_scope.

Variable tbl : gmap string seq_value.

Lemma vt100_call_handler_data (h : handler_key) (t : string) :
  Forall (fun k => data k = t) (_call_handler h t).
Proof.
  assert (H1 : forall k, Forall (fun k => data k = t) (call_one k t)).
  { intros k. unfold call_one. destruct (truthy t); repeat constructor. }
  destruct h as [s|k|ks]; cbn [_call_handler]; try apply H1.
  induction ks as [|k ks IH]; cbn [flat_map]; [constructor|].
  apply Forall_app. split; [apply H1 | exact IH].
Qed.

(** With an empty buffer the coroutine yields at once. *)
Lemma vt100_resume_empty (f : nat) (fl : bool) :
  resume tbl (S f) "" fl = Some ([], "").
Proof. destruct fl; reflexivity. Qed.

(** An exact match is handed over and the buffer is emptied. *)
Lemma vt100_resume_match (f : nat) (c : ascii) (s : string) (m : seq_value) :
  _get_match tbl (String c s) = Some m ->
  resume tbl (S f) (String c s) false
    = Some (_call_handler (of_value m) (String c s), "").
Proof.
  intros Hm. cbn [resume]. unfold turn. cbn [truthy]. rewrite Hm.
  reflexivity.
Qed.

(** No exact match, but a prefix of a longer one: the turn sets [retry]
    and changes nothing else, so that the coroutine never yields. *)
Lemma vt100_resume_hangs (c : ascii) (s : string) :
  _get_match tbl (String c s) = None ->
  is_prefix_of_longer_match tbl (String c s) = true ->
  forall f, resume tbl f (String c s) false = None.
Proof.
  intros Hm Hp f. induction f as [|f IH]; [reflexivity|].
  cbn [resume]. unfold turn. cbn [truthy]. rewrite Hm, Hp. cbn.
  rewrite IH. reflexivity.
Qed.

(** Neither: the character is handed over as a literal. *)
Lemma vt100_resume_literal (f : nat) (c : ascii) :
  _get_match tbl (String c "") = None ->
  is_prefix_of_longer_match tbl (String c "") = false ->
  resume tbl (S (S f)) (String c "") false
    = Some ([mkKeyPress (StrKey (String c "")) (String c "")], "").
Proof.
  intros Hm Hp. cbn [resume]. unfold turn at 1. cbn [truthy]. rewrite Hm, Hp.
  cbn. destruct f; reflexivity.
Qed.

(** What [send] can return from the empty buffer: keys whose data is the
    one character sent, and the empty buffer again. *)
Lemma vt100_send_from_empty (f : nat) (c : ascii) keys p :
  send tbl f "" c = Some (keys, p) ->
  p = "" /\ Forall (fun k => data k = String c "") keys.
Proof.
  unfold send. intros H.
  change (String.append "" (String c "")) with (String c "") in H.
  destruct (_get_match tbl (String c "")) as [m|] eqn:Hm.
  - destruct f as [|f]; [discriminate|].
    rewrite (vt100_resume_match f c "" m Hm) in H. injection H as <- <-.
    split; [reflexivity | apply vt100_call_handler_data].
  - destruct (is_prefix_of_longer_match tbl (String c "")) eqn:Hp.
    + rewrite (vt100_resume_hangs c "" Hm Hp f) in H. discriminate.
    + destruct f as [|[|f]]; [discriminate| |].
      * cbn [resume] in H. unfold turn in H. cbn [truthy] in H.
        rewrite Hm, Hp in H. cbn in H. discriminate.
      * rewrite (vt100_resume_literal f c Hm Hp) in H. injection H as <- <-.
        split; [reflexivity|]. repeat constructor.
Qed.

(** Fed from its initial state, the parser only ever reports keys of one
    character of data, and its buffer is empty whenever it yields. *)
Lemma vt100_feed_from_empty (f : nat) (d : string) : forall keys p,
  feed tbl f "" d = Some (keys, p) ->
  p = "" /\ Forall (fun k => String.length (data k) = 1%nat) keys.
Proof.
  induction d as [|c d IH]; intros keys p H.
  - injection H as <- <-. split; [reflexivity | constructor].
  - cbn [feed] in H.
    destruct (send tbl f "" c) as [[k1 p1]|] eqn:E1; [|discriminate].
    apply vt100_send_from_empty in E1. destruct E1 as [-> Hk1].
    cbn in H. destruct (feed tbl f "" d) as [[k2 p2]|] eqn:E2; [|discriminate].
    destruct (IH k2 p2 eq_refl) as [-> Hk2]. cbn in H. injection H as <- <-.
    split; [reflexivity|]. apply Forall_app. split; [|exact Hk2].
    eapply Forall_impl; [exact Hk1|]. cbn. intros k ->. reflexivity.
Qed.

End Vt100Facts.

Section Vt100Chunks.
Import PyStr Vt100.
Local Open Scope string_scope.

Variable tbl : gmap string seq_value.

(** From the empty buffer, two turns are all that [send] can use: with
    more fuel the outcome is the same, so that [None] stands for a
    coroutine that never yields. *)
Lemma vt100_send_fuel (n : nat) (c : ascii) :
  send tbl (S (S n)) "" c = send tbl 2 "" c.
Proof.
  unfold send. change (String.append "" (String c "")) with (String c "").
  destruct (_get_match tbl (String c "")) as [m|] eqn:Hm.
  - rewrite !(vt100_resume_match tbl _ c "" m Hm). reflexivity.
  - destruct (is_prefix_of_longer_match tbl (String c "")) eqn:Hp.
    + rewrite !(vt100_resume_hangs tbl c "" Hm Hp). reflexivity.
    + rewrite (vt100_resume_literal tbl n c Hm Hp).
      rewrite (vt100_resume_literal tbl 0 c Hm Hp). reflexivity.
Qed.

Lemma vt100_feed_fuel (n : nat) (d : string) :
  feed tbl (S (S n)) "" d = feed tbl 2 "" d.
Proof.
  induction d as [|c d IH]; [reflexivity|].
  cbn [feed]. rewrite vt100_send_fuel.
  destruct (send tbl 2 "" c) as [[k p]|] eqn:E; [|reflexivity].
  apply vt100_send_from_empty in E. destruct E as [-> _].
  cbn. rewrite IH. reflexivity.
Qed.

Lemma vt100_feed_and_flush_fuel (n : nat) (d : string) :
  feed_and_flush tbl (S (S n)) "" d = feed_and_flush tbl 2 "" d.
Proof.
  unfold feed_and_flush. rewrite vt100_feed_fuel.
  destruct (feed tbl 2 "" d) as [[k p]|] eqn:E; [|reflexivity].
  apply vt100_feed_from_empty in E. destruct E as [-> _].
  unfold flush. cbn -[resume]. rewrite !vt100_resume_empty. reflexivity.
Qed.

(** Feeding a string in two parts is feeding it whole: the only state
    between two calls of [feed] is the suspended coroutine. *)
Lemma vt100_feed_app (f : nat) (a b : string) : forall p,
  feed tbl f p (a ++ b) =
    '(k, p') ← feed tbl f p a;
    '(k', p'') ← feed tbl f p' b;
    Some ((k ++ k')%list, p'').
Proof.
  induction a as [|c a IH]; intros p.
  - change (String.append "" b) with b. cbn.
    destruct (feed tbl f p b) as [[k p']|]; reflexivity.
  - change (String c a ++ b) with (String c (a ++ b)). cbn [feed].
    destruct (send tbl f p c) as [[k1 p1]|]; [|reflexivity].
    cbn. rewrite IH.
    destruct (feed tbl f p1 a) as [[k2 p2]|]; [|reflexivity].
    cbn. destruct (feed tbl f p2 b) as [[k3 p3]|]; [|reflexivity].
    cbn. rewrite app_assoc. reflexivity.
Qed.

Lemma vt100_feed_chunks_whole (f : nat) (chunks : list string) : forall p,
  feed_chunks tbl f p chunks = feed tbl f p (whole chunks).
Proof.
  induction chunks as [|chunk chunks IH]; intros p; [reflexivity|].
  cbn [feed_chunks whole fold_right]. rewrite vt100_feed_app.
  destruct (feed tbl f p chunk) as [[k p']|]; [|reflexivity].
  cbn. rewrite IH. reflexivity.
Qed.

End Vt100Chunks.

Section Vt100Claims.
Import PyStr Vt100.
Local Open Scope string_scope.

(** C4. Whatever the dictionary of sequences, feeding ESC [ A never reports
    the one key Up for the sequence. With a dictionary that binds the
    sequence but not ESC alone, [feed] does not return, on ESC [ A as on
    ESC alone; with one that also binds ESC, ESC is reported at once and
    [ and A follow as literals, while ESC followed by [flush] gives the one
    key Escape. *)
Theorem vt100_cursor_up_not_recognised :
  (forall (tbl : gmap string seq_value) (fuel : nat) (p : string),
     feed tbl fuel start esc_bracket_A
       <> Some ([mkKeyPress (KeysKey Up) esc_bracket_A], p))
  /\ (forall fuel : nat, feed table_up fuel start esc_bracket_A = None)
  /\ (forall fuel : nat, feed_and_flush table_up fuel start esc = None)
  /\ (forall n : nat,
        feed table_escape_up (S (S n)) start esc_bracket_A
          = Some ([mkKeyPress (KeysKey Escape) esc;
                   mkKeyPress (StrKey "[") "[";
                   mkKeyPress (StrKey "A") "A"], ""))
  /\ (forall n : nat,
        feed_and_flush table_escape_up (S (S n)) start esc
          = Some ([mkKeyPress (KeysKey Escape) esc], "")).
Proof.
  assert (Hhang : forall f, resume table_up f esc false = None).
  { apply vt100_resume_hangs; reflexivity. }
  split; [|split; [|split; [|split]]].
  - intros tbl fuel p H. apply vt100_feed_from_empty in H.
    destruct H as [_ H]. inversion H as [|? ? Hlen _]. discriminate Hlen.
  - intros fuel. unfold esc_bracket_A, start. cbn [feed]. unfold send.
    change (String.append "" (String ESC "")) with esc. rewrite Hhang. reflexivity.
  - intros fuel. unfold feed_and_flush, esc, start. cbn [feed]. unfold send.
    change (String.append "" (String ESC "")) with esc. rewrite Hhang. reflexivity.
  - intros n. unfold start. rewrite vt100_feed_fuel. reflexivity.
  - intros n. unfold start. rewrite vt100_feed_and_flush_fuel. reflexivity.
Qed.

(** C5. For every dictionary of sequences, every state of the parser and
    every way of cutting an input into chunks, feeding the chunks one by one
    and then flushing gives what feeding the whole input and then flushing
    gives: the same keys and the same buffer, or in both cases no return.
    From the initial state the outcome does not depend on the fuel beyond
    two turns of the loop. *)
Theorem vt100_chunking_invariance
    (tbl : gmap string seq_value) (fuel : nat) (prefix : string)
    (chunks : list string) :
  ('(keys, p') ← feed_chunks tbl fuel prefix chunks;
   '(keys', p'') ← flush tbl fuel p';
   Some ((keys ++ keys')%list, p''))
    = feed_and_flush tbl fuel prefix (whole chunks)
  /\ feed_and_flush tbl (S (S fuel)) start (whole chunks)
     = feed_and_flush tbl 2 start (whole chunks).
Proof.
  split.
  - unfold feed_and_flush. rewrite vt100_feed_chunks_whole. reflexivity.
  - apply vt100_feed_and_flush_fuel.
Qed.

End Vt100Claims.

(** ** The scrollable pane *)

Section ScrollablePaneFacts.
Import Scrollable_pane.

Ltac bool_to_prop :=
  repeat match goal with
  | H : (_ >=? _) = _ |- _ => rewrite Z.geb_leb in H
  | H : (_ >? _) = _ |- _ => rewrite Z.gtb_ltb in H
  | H : (_ <? _) = true |- _ => apply Z.ltb_lt in H
  | H : (_ <? _) = false |- _ => apply Z.ltb_ge in H
  | H : (_ <=? _) = true |- _ => apply Z.leb_le in H
  | H : (_ <=? _) = false |- _ => apply Z.leb_gt in H
  end.

Ltac innermost_if :=
  match goal with
  | |- context [if ?b then _ else _] =>
      lazymatch b with
      | context [if _ then _ else _] => fail
      | _ => destruct b eqn:?
      end
  end.

Ltac scroll_cases :=
  unfold write_to_screen, visible_height, _make_window_visible, cursor_rule,
    window_rule, set_vertical_scroll in *;
  cbn in *; repeat (innermost_if; cbn in * ); bool_to_prop.

(** Neither rule touches anything but [vertical_scroll]. *)
Lemma scrollable_pane_keeps_configuration (self : ScrollablePane)
    (vh H : Z) (win : WritePosition) (cursor : option Point) :
  let self' := _make_window_visible self vh H win cursor in
  scroll_offsets self' = scroll_offsets self
  /\ keep_cursor_visible self' = keep_cursor_visible self
  /\ keep_focused_window_visible self' = keep_focused_window_visible self
  /\ max_available_height self' = max_available_height self
  /\ show_scrollbar self' = show_scrollbar self
  /\ display_arrows self' = display_arrows self.
Proof.
  destruct self as [[t b] kc kf mh sb da vs], cursor as [[cx cy]|];
    destruct kc, kf; scroll_cases; repeat split; reflexivity.
Qed.

(** The cursor rule keeps [vertical_scroll] between 0 and the last scroll
    position, whatever the row of the cursor and the offsets. *)
Lemma scrollable_pane_cursor_rule_range (self : ScrollablePane) (V H r : Z) :
  0 <= vertical_scroll self <= Z.max 0 (H - V) ->
  0 <= vertical_scroll
         (cursor_rule self (Z.min V (H - vertical_scroll self)) H r)
    <= Z.max 0 (H - V).
Proof.
  destruct self as [[t b] kc kf mh sb da vs]; destruct kc;
    scroll_cases; intros; lia.
Qed.

(** C6. A render pass takes [vertical_scroll] out of its range. A pane with
    the default configuration, placed at row 5 of the screen with height
    10, on content of height 12 with the cursor in row 0, starts at 0 and
    ends the pass at 5, above [max 0 (12 - 10)]. The same pane at row 0 on
    content of height 100 with the cursor in row 50 ends the pass at 0: the
    cursor is outside the rows shown, and [vertical_scroll] is not in the
    interval that the design document gives for it. *)
Theorem scrollable_pane_render_pass_leaves_range :
  let pane1 :=
    write_to_screen default_pane 12 (Some (mkPoint 0 0)) (mkWritePosition 0 5 80 10) in
  let pane2 :=
    write_to_screen default_pane 100 (Some (mkPoint 0 50)) (mkWritePosition 0 0 80 10) in
  vertical_scroll default_pane = 0
  /\ vertical_scroll pane1 = 5
  /\ ~ (0 <= vertical_scroll pane1 <= Z.max 0 (12 - 10))
  /\ vertical_scroll pane2 = 0
  /\ ~ (vertical_scroll pane2 <= 50 < vertical_scroll pane2 + 10)
  /\ ~ (50 - top (scroll_offsets pane2) <= vertical_scroll pane2
          <= 50 - 10 + bottom (scroll_offsets pane2) + 1).
Proof.
  intros pane1 pane2.
  change (vertical_scroll default_pane) with 0.
  change (vertical_scroll pane1) with 5.
  change (vertical_scroll pane2) with 0.
  change (scroll_offsets pane2) with (mkScrollOffsets 1 1).
  cbn [top bottom]. lia.
Qed.

(** What [_make_window_visible] keeps when it is called as its docstring
    says, with the place of the focused window on the temp screen. A pane
    starts with [vertical_scroll] 0. Let the viewport have height [V] and
    the virtual screen height [H], and let the visible height be
    [min V (H - vertical_scroll)]. If [vertical_scroll] is between 0 and
    [max 0 (H - V)] before the call and the focused window, when it is
    followed, lies within the virtual screen, then [vertical_scroll] is
    between 0 and [max 0 (H - V)] after the call. When moreover only the
    cursor is followed, [H > V] and [V >= top + bottom + 1], then for a
    cursor in row [r]
    [min (H - V) (r - V + bottom + 1) <= vertical_scroll <= max 0 (r - top)]
    after the call. *)
Theorem scrollable_pane_scroll_range (self : ScrollablePane) (V H : Z)
    (win : WritePosition) (cursor : option Point) :
  0 <= vertical_scroll self <= Z.max 0 (H - V) ->
  (keep_focused_window_visible self = true ->
   0 <= ypos win /\ ypos win + height win <= H) ->
  let self' :=
    _make_window_visible self (Z.min V (H - vertical_scroll self)) H win cursor in
  (forall offsets cursor_visible focused_window_visible max_height scrollbar arrows,
     vertical_scroll (__init__ offsets cursor_visible focused_window_visible
                        max_height scrollbar arrows) = 0)
  /\ 0 <= vertical_scroll self' <= Z.max 0 (H - V)
  /\ (forall p : Point,
        cursor = Some p ->
        keep_cursor_visible self = true ->
        keep_focused_window_visible self = false ->
        V < H ->
        top (scroll_offsets self) + bottom (scroll_offsets self) + 1 <= V ->
        Z.min (H - V) (y p - V + bottom (scroll_offsets self) + 1)
          <= vertical_scroll self'
          <= Z.max 0 (y p - top (scroll_offsets self))).
Proof.
  intros Hr Hw self'. subst self'.
  split; [reflexivity|].
  destruct self as [[t b] kc kf mh sb da vs], win as [wx wy ww wh],
    cursor as [[cx cy]|]; cbn in Hr, Hw.
  all: destruct kc, kf; try specialize (Hw eq_refl).
  all: split; [scroll_cases; lia|].
  all: intros [px py] Hp Hkc Hkf HVH Hoff; cbn in Hkc, Hkf;
    try discriminate; injection Hp as -> ->.
  scroll_cases; lia.
Qed.

(** The same at a pane of height 10 on content of height 100 with the
    cursor in row 50: with the default configuration and a window within
    the content, and with only the cursor followed. *)
Lemma scrollable_pane_scroll_range_witness :
  let win := mkWritePosition 0 0 80 10 in
  let cursor := Some (mkPoint 0 50) in
  (0 <= vertical_scroll default_pane <= Z.max 0 (100 - 10)
   /\ 0 <= vertical_scroll
             (_make_window_visible default_pane
                (Z.min 10 (100 - vertical_scroll default_pane)) 100 win cursor)
        <= Z.max 0 (100 - 10))
  /\ Z.min (100 - 10) (50 - 10 + 1 + 1)
       <= vertical_scroll
            (_make_window_visible cursor_only_pane
               (Z.min 10 (100 - vertical_scroll cursor_only_pane)) 100 win cursor)
       <= Z.max 0 (50 - 1).
Proof.
  intros win cursor.
  assert (H0 : 0 <= 0 <= Z.max 0 (100 - 10)) by (cbn; lia).
  split; [split; [exact H0|]|].
  - refine (proj1 (proj2 (scrollable_pane_scroll_range default_pane 10 100 win
                            cursor H0 _))).
    intros _. cbn. lia.
  - refine (proj2 (proj2 (scrollable_pane_scroll_range cursor_only_pane 10 100 win
                            cursor H0 _))
              (mkPoint 0 50) eq_refl eq_refl eq_refl _ _).
    + intros _. cbn. lia.
    + lia.
    + cbn. lia.
Defined.

(** With the focused window followed and at least a viewport of content
    below the scroll position, a render pass with a cursor leaves
    [vertical_scroll] at the row of the pane on the real screen, whatever
    the cursor, the offsets and the scroll position before. *)
Theorem scrollable_pane_pass_ends_at_own_row (self : ScrollablePane) (H : Z)
    (p : Point) (write_position : WritePosition) :
  keep_focused_window_visible self = true ->
  height write_position <= H - vertical_scroll self ->
  vertical_scroll (write_to_screen self H (Some p) write_position)
    = ypos write_position.
Proof.
  destruct self as [[t b] kc kf mh sb da vs], write_position as [wx wy ww wh],
    p as [px py]; cbn [keep_focused_window_visible vertical_scroll height].
  intros -> Hh. destruct kc; scroll_cases; lia.
Qed.

Lemma scrollable_pane_pass_ends_at_own_row_witness :
  vertical_scroll
    (write_to_screen default_pane 12 (Some (mkPoint 0 0)) (mkWritePosition 0 5 80 10))
  = 5.
Proof.
  apply (scrollable_pane_pass_ends_at_own_row default_pane 12 (mkPoint 0 0)
           (mkWritePosition 0 5 80 10)).
  - reflexivity.
  - cbn. lia.
Defined.

(** In an area of at least one column and one row,
    [_clip_point_to_visible_area] gives a point of the area; a point whose
    column is in the area keeps it, and a point whose row is shown gets its
    row relative to the scroll position. *)
Theorem scrollable_pane_clip_point_in_area (self : ScrollablePane) (point : Point)
    (write_position : WritePosition) :
  1 <= width write_position -> 1 <= height write_position ->
  let q := _clip_point_to_visible_area self point write_position in
  0 <= x q <= width write_position - 1
  /\ 0 <= y q <= height write_position - 1
  /\ (0 <= x point <= width write_position - 1 -> x q = x point)
  /\ (vertical_scroll self <= y point
        <= vertical_scroll self + height write_position - 1 ->
      y q = y point - vertical_scroll self).
Proof.
  intros Hw Hh q. subst q. unfold _clip_point_to_visible_area. cbn [x y]. lia.
Qed.

Lemma scrollable_pane_clip_point_in_area_witness :
  let q := _clip_point_to_visible_area default_pane (mkPoint 200 (-3))
             (mkWritePosition 0 5 80 10) in
  0 <= x q <= 80 - 1 /\ 0 <= y q <= 10 - 1.
Proof.
  intros q.
  pose proof (scrollable_pane_clip_point_in_area default_pane (mkPoint 200 (-3))
                (mkWritePosition 0 5 80 10)) as H.
  cbn [width height] in H.
  destruct (H ltac:(lia) ltac:(lia)) as (Hx & Hy & _).
  split; [exact Hx | exact Hy].
Defined.

(** When only the cursor is followed, one render pass settles the scroll
    position: a second pass with the same cursor and the same content
    changes nothing. *)
Theorem scrollable_pane_cursor_pass_settles (self : ScrollablePane) (H : Z)
    (p : Point) (write_position : WritePosition) :
  keep_focused_window_visible self = false ->
  0 <= vertical_scroll self <= H - height write_position ->
  top (scroll_offsets self) + bottom (scroll_offsets self) + 1
    <= height write_position ->
  let self' := write_to_screen self H (Some p) write_position in
  write_to_screen self' H (Some p) write_position = self'.
Proof.
  destruct self as [[t b] kc kf mh sb da vs], write_position as [wx wy ww wh],
    p as [px py];
    cbn [keep_focused_window_visible vertical_scroll height scroll_offsets top bottom].
  intros -> Hr Ho.
  destruct kc; scroll_cases; try reflexivity; try lia; f_equal; lia.
Qed.

Lemma scrollable_pane_cursor_pass_settles_witness :
  let wp := mkWritePosition 0 0 80 10 in
  let self' := write_to_screen cursor_only_pane 100 (Some (mkPoint 0 50)) wp in
  vertical_scroll self' = 42
  /\ write_to_screen self' 100 (Some (mkPoint 0 50)) wp = self'.
Proof.
  intros wp self'. split; [reflexivity|].
  apply (scrollable_pane_cursor_pass_settles cursor_only_pane 100 (mkPoint 0 50) wp).
  - reflexivity.
  - cbn. lia.
  - cbn. lia.
Defined.

End ScrollablePaneFacts.

(** ** The bridge from a generator to an async generator *)

Section AsyncGeneratorFacts.
Import Async_generator.
Context {T : Type}.

(** While there is room, the loop of the producer appends the items. *)
Lemma producer_loop_fits (m : Z) (items : list T) : forall c : list (entry T),
  m <= 0 \/ Z.of_nat (length c) + Z.of_nat (length items) <= m ->
  producer_loop (mkQueue m c) items = (mkQueue m (c ++ map Item items), None).
Proof.
  induction items as [|item items IH]; intros c Hc.
  - cbn. rewrite app_nil_r. reflexivity.
  - cbn [producer_loop]. unfold put_nowait, full. cbn [maxsize queue].
    destruct ((0 <? m) && (m <=? Z.of_nat (length c))) eqn:E.
    + apply andb_true_iff in E. destruct E as [E1 E2].
      apply Z.ltb_lt in E1. apply Z.leb_le in E2. cbn [length] in Hc. lia.
    + rewrite IH.
      * cbn [map]. rewrite <- app_assoc. reflexivity.
      * rewrite length_app. cbn [length] in *. lia.
Qed.

(** When the items outnumber the room, the loop ends on a full queue with
    [NameError] pending. *)
Lemma producer_loop_overflows (m : Z) (items : list T) : forall c : list (entry T),
  0 < m -> Z.of_nat (length c) <= m ->
  m < Z.of_nat (length c) + Z.of_nat (length items) ->
  exists c', producer_loop (mkQueue m c) items = (mkQueue m c', Some Py.NameError)
             /\ Z.of_nat (length c') = m.
Proof.
  induction items as [|item items IH]; intros c Hm Hc Hlen.
  - cbn [length] in Hlen. lia.
  - cbn [producer_loop]. unfold put_nowait, full. cbn [maxsize queue].
    destruct ((0 <? m) && (m <=? Z.of_nat (length c))) eqn:E.
    + apply andb_true_iff in E. destruct E as [_ E2]. apply Z.leb_le in E2.
      exists c. split; [reflexivity | lia].
    + apply andb_false_iff in E. destruct E as [E|E];
        [apply Z.ltb_ge in E; lia | apply Z.leb_gt in E].
      apply IH; [exact Hm | |]; rewrite length_app; cbn [length] in *; lia.
Qed.

(** The consumer takes the items up to the first [_Done]. *)
Lemma consumer_items_done (items : list T) (rest : list (entry T)) :
  consumer (map Item items ++ _Done :: rest) = (items, Returns).
Proof.
  induction items as [|item items IH]; [reflexivity|].
  cbn. cbn in IH. rewrite IH. reflexivity.
Qed.

(** C3. What the async generator delivers for an iterable of [N] items and
    a queue of size [buffer_size]: when [0 < buffer_size <= N] it yields
    nothing and never ends, since the producer is awaited before the first
    item is taken and blocks on the full queue; otherwise it yields the [N]
    items in order and ends. *)
Theorem bridge_blocks_when_queue_fills (items : list T) (buffer_size : Z) :
  generator_to_async_generator items buffer_size =
    if (0 <? buffer_size) && (buffer_size <=? Z.of_nat (length items))
    then ([], Blocks)
    else (items, Returns).
Proof.
  unfold generator_to_async_generator, producer.
  destruct ((0 <? buffer_size) && (buffer_size <=? Z.of_nat (length items))) eqn:E.
  - apply andb_true_iff in E. destruct E as [E1 E2].
    apply Z.ltb_lt in E1. apply Z.leb_le in E2.
    destruct (Z.eq_dec buffer_size (Z.of_nat (length items))) as [Heq|Hne].
    + rewrite producer_loop_fits by (cbn [length]; lia).
      unfold put_nowait, full. cbn [maxsize queue app].
      rewrite length_map.
      replace (0 <? buffer_size) with true by (symmetry; apply Z.ltb_lt; lia).
      replace (buffer_size <=? Z.of_nat (length items)) with true
        by (symmetry; apply Z.leb_le; lia).
      reflexivity.
    + destruct (producer_loop_overflows buffer_size items [])
        as (c' & -> & Hc'); [lia | cbn [length]; lia | cbn [length]; lia |].
      unfold put_nowait, full. cbn [maxsize queue].
      replace (0 <? buffer_size) with true by (symmetry; apply Z.ltb_lt; lia).
      replace (buffer_size <=? Z.of_nat (length c')) with true
        by (symmetry; apply Z.leb_le; lia).
      reflexivity.
  - rewrite producer_loop_fits.
    + unfold put_nowait, full. cbn [maxsize queue app]. rewrite length_map, E.
      cbn [queue]. apply consumer_items_done.
    + apply andb_false_iff in E. destruct E as [E|E];
        [apply Z.ltb_ge in E | apply Z.leb_gt in E]; cbn [length]; lia.
Qed.

End AsyncGeneratorFacts.


(** * Further properties of the code *)

(** ** Telnet: the handlers and the coroutine on their own *)

Section TelnetMore.
Import Py Telnet.

(** Whatever bytes are fed to a new parser, every one of them is handed to
    [data_received_callback] as a [bytes] object of length one, in order,
    nothing else happens, and the coroutine is back at its first [yield]. *)
Theorem telnet_feed_is_transparent (data : list byte) :
  feed init data
    = (map (fun b => data_received_callback (PyBytes [b])) data, inr init).
Proof. apply telnet_feed_passthrough. Qed.

(** Called with an [int], which is what [feed] sends into the coroutine,
    each of the four handlers logs and then raises [TypeError] at the
    concatenation of a [bytes] constant with the [int]. *)
Theorem telnet_handlers_raise_on_int (n : Z) :
  do_received (PyInt n) = ([logger (LogDo (PyInt n))], inl TypeError)
  /\ dont_received (PyInt n) = ([logger (LogDont (PyInt n))], inl TypeError)
  /\ will_received (PyInt n) = ([logger (LogWill (PyInt n))], inl TypeError)
  /\ wont_received (PyInt n) = ([logger (LogWont (PyInt n))], inl TypeError).
Proof. repeat split. Qed.

(** Called with a [bytes] option [X], each handler logs and answers with
    exactly one call of [data_received_callback], on two bytes, a verb and
    [X], without a leading IAC: DO is answered WILL for ECHO and
    SUPPRESS_GO_AHEAD and WONT otherwise, WILL is answered DO for these two
    and DONT otherwise, DONT is answered WONT and WONT is answered DONT. *)
Theorem telnet_handlers_reply_on_bytes (X : byte) :
  let known := Byte.eqb X x01 || Byte.eqb X x03 in
  do_received (PyBytes [X])
    = ([logger (LogDo (PyBytes [X]));
        data_received_callback (PyBytes [if known then xfb else xfc; X])], inr tt)
  /\ will_received (PyBytes [X])
    = ([logger (LogWill (PyBytes [X]));
        data_received_callback (PyBytes [if known then xfd else xfe; X])], inr tt)
  /\ dont_received (PyBytes [X])
    = ([logger (LogDont (PyBytes [X])); data_received_callback (PyBytes [xfc; X])],
       inr tt)
  /\ wont_received (PyBytes [X])
    = ([logger (LogWont (PyBytes [X])); data_received_callback (PyBytes [xfe; X])],
       inr tt).
Proof. destruct X; repeat split. Qed.

Lemma unpack_H_range (hi lo : byte) : 0 <= unpack_H hi lo < 65536.
Proof.
  unfold unpack_H.
  pose proof (Byte.to_N_bounded hi). pose proof (Byte.to_N_bounded lo). lia.
Qed.

(** [naws] never raises; it reports a size only for a payload of four
    bytes, and then both numbers are below 65536. *)
Theorem telnet_naws_size_in_range (data : list byte) (rows columns : Z) :
  In (size_received_callback rows columns) (fst (naws data)) ->
  snd (naws data) = inr tt
  /\ length data = 4%nat
  /\ 0 <= rows < 65536 /\ 0 <= columns < 65536.
Proof.
  destruct data as [|c1 [|c0 [|r1 [|r0 [|x data]]]]]; cbn;
    try (intros [H|[]]; discriminate H).
  intros [H|[H|[]]]; [discriminate H|]. injection H as <- <-.
  repeat split; apply unpack_H_range.
Qed.

Lemma telnet_naws_size_in_range_witness :
  In (size_received_callback 24 80) (fst (naws [x00; x50; x00; x18]))
  /\ length [x00; x50; x00; x18] = 4%nat.
Proof.
  assert (H : In (size_received_callback 24 80) (fst (naws [x00; x50; x00; x18])))
    by (right; left; reflexivity).
  split; [exact H|].
  exact (proj1 (proj2 (telnet_naws_size_in_range _ _ _ H))).
Defined.

(** [naws] on any payload that does not have four bytes only writes a
    warning to the log. *)
Theorem telnet_naws_wrong_length (data : list byte) :
  length data <> 4%nat ->
  naws data = ([logger (LogInvalidNaws data)], inr tt).
Proof.
  destruct data as [|c1 [|c0 [|r1 [|r0 [|x data]]]]]; cbn; intros H;
    try reflexivity. congruence.
Qed.

Lemma telnet_naws_wrong_length_witness :
  naws [x00; x50; x00] = ([logger (LogInvalidNaws [x00; x50; x00])], inr tt).
Proof. apply telnet_naws_wrong_length. cbn. lia. Defined.

End TelnetMore.

Section TelnetNegotiate.
Import Py Telnet.

Lemma bytes_prefix_one (b : byte) (data : list byte) :
  bytes_prefix [b] data = true -> exists rest, data = b :: rest.
Proof.
  destruct data as [|y rest]; cbn; [discriminate|].
  rewrite andb_true_r. intros H. apply N.eqb_eq in H.
  apply byte_to_N_inj in H. subst y. exists rest. reflexivity.
Qed.

(** [ttype] never raises, and it reports a terminal type only for a payload
    that starts with IS: the type is the rest of the payload, decoded as
    ASCII with the other bytes dropped. *)
Theorem telnet_ttype_reports_after_is (data : list byte) (t : string) :
  In (ttype_received_callback t) (fst (ttype data)) ->
  snd (ttype data) = inr tt
  /\ exists rest, data = x00 :: rest /\ t = decode_ascii_ignore rest.
Proof.
  unfold ttype. cbn -[bytes_prefix].
  destruct (bytes_prefix [x00] data) eqn:E; cbn.
  - intros [H|[H|[]]]; [discriminate H|]. injection H as <-.
    split; [reflexivity|]. apply bytes_prefix_one in E. destruct E as [rest ->].
    exists rest. split; reflexivity.
  - intros [H|[]]. discriminate H.
Qed.

Lemma telnet_ttype_reports_after_is_witness :
  In (ttype_received_callback "xterm") (fst (ttype [x00; x78; x74; x65; x72; x6d]))
  /\ exists rest, [x00; x78; x74; x65; x72; x6d] = x00 :: rest
                  /\ "xterm"%string = decode_ascii_ignore rest.
Proof.
  assert (H : In (ttype_received_callback "xterm")
                (fst (ttype [x00; x78; x74; x65; x72; x6d])))
    by (right; left; reflexivity).
  split; [exact H|].
  exact (proj2 (telnet_ttype_reports_after_is _ _ H)).
Defined.

Lemma telnet_negotiate_naws (rest : list byte) :
  negotiate (x1f :: rest)
    = (logger (LogNegotiating (x1f :: rest)) :: fst (naws rest), snd (naws rest)).
Proof. unfold negotiate. cbn -[naws]. destruct (naws rest). reflexivity. Qed.

Lemma telnet_negotiate_ttype (rest : list byte) :
  negotiate (x18 :: rest)
    = (logger (LogNegotiating (x18 :: rest)) :: fst (ttype rest), snd (ttype rest)).
Proof. unfold negotiate. cbn -[ttype]. destruct (ttype rest). reflexivity. Qed.

Lemma telnet_negotiate_other (data : list byte) :
  bytes_prefix [x1f] data = false -> bytes_prefix [x18] data = false ->
  negotiate data
    = ([logger (LogNegotiating data); logger (LogUnknownNegotiation data)], inr tt).
Proof.
  intros E1 E2. unfold negotiate. cbn -[bytes_prefix naws ttype].
  rewrite E1. cbn -[bytes_prefix naws ttype]. rewrite E2. reflexivity.
Qed.

Lemma telnet_naws_quiet (l : list byte) :
  snd (naws l) = inr tt
  /\ Forall (fun ev => forall d, ev <> data_received_callback d) (fst (naws l)).
Proof.
  destruct l as [|c1 [|c0 [|r1 [|r0 [|x l]]]]]; cbn;
    (split; [reflexivity | repeat constructor; discriminate]).
Qed.

Lemma telnet_ttype_quiet (l : list byte) :
  snd (ttype l) = inr tt
  /\ Forall (fun ev => forall d, ev <> data_received_callback d) (fst (ttype l)).
Proof.
  unfold ttype. cbn -[bytes_prefix].
  destruct (bytes_prefix [x00] l); cbn;
    (split; [reflexivity | repeat constructor; discriminate]).
Qed.

(** [negotiate] never raises and never calls [data_received_callback];
    after its log line it does what [naws] does on the rest of a payload
    that starts with NAWS and what [ttype] does on the rest of one that
    starts with TTYPE, and it logs a warning for every other payload. *)
Theorem telnet_negotiate_dispatch (data : list byte) :
  snd (negotiate data) = inr tt
  /\ Forall (fun ev => forall d, ev <> data_received_callback d) (fst (negotiate data))
  /\ (forall rest, data = x1f :: rest ->
        fst (negotiate data) = logger (LogNegotiating data) :: fst (naws rest))
  /\ (forall rest, data = x18 :: rest ->
        fst (negotiate data) = logger (LogNegotiating data) :: fst (ttype rest))
  /\ ((forall rest, data <> x1f :: rest) -> (forall rest, data <> x18 :: rest) ->
        fst (negotiate data)
          = [logger (LogNegotiating data); logger (LogUnknownNegotiation data)]).
Proof.
  destruct (bytes_prefix [x1f] data) eqn:E1.
  { apply bytes_prefix_one in E1. destruct E1 as [rest ->].
    rewrite telnet_negotiate_naws. cbn [fst snd].
    destruct (telnet_naws_quiet rest) as [Hs Hf].
    split; [exact Hs|]. split; [constructor; [discriminate | exact Hf]|].
    split; [intros rest' H; injection H as <-; reflexivity|].
    split; [intros rest' H; discriminate H|].
    intros H _. exfalso. apply (H rest). reflexivity. }
  destruct (bytes_prefix [x18] data) eqn:E2.
  { apply bytes_prefix_one in E2. destruct E2 as [rest ->].
    rewrite telnet_negotiate_ttype. cbn [fst snd].
    destruct (telnet_ttype_quiet rest) as [Hs Hf].
    split; [exact Hs|]. split; [constructor; [discriminate | exact Hf]|].
    split; [intros rest' H; discriminate H|].
    split; [intros rest' H; injection H as <-; reflexivity|].
    intros _ H. exfalso. apply (H rest). reflexivity. }
  rewrite (telnet_negotiate_other data E1 E2). cbn [fst snd].
  split; [reflexivity|]. split; [repeat constructor; discriminate|].
  split; [intros rest ->; cbn in E1; discriminate E1|].
  split; [intros rest ->; cbn in E2; discriminate E2|].
  reflexivity.
Qed.

Lemma telnet_negotiate_dispatch_witness :
  let data := [x1f; x00; x50; x00; x18] in
  fst (negotiate data)
    = logger (LogNegotiating data) :: fst (naws [x00; x50; x00; x18]).
Proof.
  intros data.
  exact (proj1 (proj2 (proj2 (telnet_negotiate_dispatch data))) _ eq_refl).
Defined.

End TelnetNegotiate.

(** ** The ANSI decoder on its own *)

Section AnsiMore.
Import Py PyStr Ansi.
Local Open Scope string_scope.

(** Whatever the text and whatever [ANSI_COLOR_NAMES] is bound to, a
    decoder that has been constructed holds no styled fragment: the style of
    each fragment is empty or the zero-width marker. *)
Theorem ansi_decoder_never_styles (names : option (list string)) (v : string) :
  match __init__ names v with
  | Ok self =>
      Forall (fun f => fst f = "" \/ fst f = "[ZeroWidthEscape]")
        (__pt_formatted_text__ self)
  | Raise _ => True
  end.
Proof. apply ansi_init_fragments. Qed.

Lemma ansi_send_all_text names (s : string) : forall (sty txt es : string) (self : ANSI),
  Forall (fun c => c <> ESC /\ c <> SOH) (list_ascii_of_string s) ->
  exists txt',
    send_all names (mkCorot sty txt false es false) self s
      = Ok (mkCorot sty txt' false es false, self).
Proof.
  induction s as [|c s IH]; intros sty txt es self Hs.
  - exists txt. reflexivity.
  - cbn [list_ascii_of_string] in Hs. inversion Hs as [|? ? [Hc1 Hc2] Hs']; subst.
    cbn [send_all]. unfold send. cbn [in_escape_sequence zero_width_escape_sequence].
    apply Ascii.eqb_neq in Hc1, Hc2. rewrite Hc1, Hc2. cbn [bind].
    apply IH. exact Hs'.
Qed.

(** A text that holds neither ESC nor the character 0x01 is decoded
    without raising and gives no fragment at all: the text is gathered but
    never handed over, since the coroutine is never resumed after the last
    character. *)
Theorem ansi_plain_text_gives_no_fragment (names : option (list string)) (v : string) :
  Forall (fun c => c <> ESC /\ c <> SOH) (list_ascii_of_string v) ->
  __init__ names v
    = Ok (mkANSI v [] None None false false false false false false false).
Proof.
  intros Hv. unfold __init__.
  destruct (ansi_send_all_text names v "" "" ""
              (mkANSI v [] None None false false false false false false false) Hv)
    as [txt' E].
  change (mkCorot "" "" false "" false) with corot_init in E.
  rewrite E. reflexivity.
Qed.

Lemma ansi_plain_text_gives_no_fragment_witness :
  __init__ None "hello"
    = Ok (mkANSI "hello" [] None None false false false false false false false).
Proof.
  apply ansi_plain_text_gives_no_fragment.
  repeat constructor; discriminate.
Defined.

(** [_create_style_string] gives the empty string exactly when no colour
    is set to a non-empty name and no flag is set. *)
Theorem ansi_style_string_empty (self : ANSI) :
  _create_style_string self = ""
  <-> (match _color self with Some c => truthy c | None => false end
       || match _bgcolor self with Some c => truthy c | None => false end
       || _bold self || _underline self || _strike self || _italic self
       || _blink self || _reverse self || _hidden self) = false.
Proof.
  destruct self as [v ft [[|c1 s1]|] [[|c2 s2]|] b u st i bl r h];
    destruct b, u, st, i, bl, r, h; cbn; split; intros H;
    solve [reflexivity | discriminate H].
Qed.

(** The attribute 0 puts back every attribute that the style string reads:
    after [_select_graphic_rendition] on ["[0m"] the style string is empty,
    whatever the attributes were. An empty list of attributes changes
    nothing. *)
Theorem ansi_reset_clears_style (names : option (list string)) (self : ANSI) :
  _select_graphic_rendition names self "[0m" = Ok (reset_attributes self)
  /\ _create_style_string (reset_attributes self) = ""
  /\ _select_graphic_rendition names self "[m" = Ok self.
Proof. repeat split. Qed.

End AnsiMore.

(** ** The VT100 parser from its initial state *)

Section Vt100More.
Import PyStr Vt100.
Local Open Scope string_scope.

Variable tbl : gmap string seq_value.

(** [_call_handler] never hands over a key press with empty data: with an
    empty [insert_text] it calls nothing, and every key press that it
    builds carries the [insert_text] it was given. *)
Theorem vt100_handler_never_passes_empty_data (h : handler_key) (t : string) :
  _call_handler h "" = []
  /\ Forall (fun k => data k = t /\ data k <> "") (_call_handler h t).
Proof.
  assert (H0 : forall k, call_one k "" = []) by reflexivity.
  assert (H1 : forall k, Forall (fun k => data k = t /\ data k <> "") (call_one k t)).
  { intros k. unfold call_one. destruct t; cbn [truthy]; repeat constructor.
    cbn. discriminate. }
  destruct h as [s|k|ks]; cbn [_call_handler]; (split; [|try apply H1]);
    try apply H0.
  - induction ks as [|k ks IH]; [reflexivity|]. cbn [flat_map]. rewrite H0. exact IH.
  - induction ks as [|k ks IH]; cbn [flat_map]; [constructor|].
    apply Forall_app. split; [apply H1 | exact IH].
Qed.

(** What one character does to a parser with an empty buffer: nothing is
    returned when the character has no match but begins a longer sequence;
    otherwise the buffer is empty again. *)
Lemma vt100_send_stalls_or_returns (n : nat) (c : ascii) :
  match _get_match tbl (String c "") with
  | Some _ => false
  | None => is_prefix_of_longer_match tbl (String c "")
  end = true /\ send tbl (S (S n)) "" c = None
  \/ match _get_match tbl (String c "") with
     | Some _ => false
     | None => is_prefix_of_longer_match tbl (String c "")
     end = false /\ exists keys, send tbl (S (S n)) "" c = Some (keys, "").
Proof.
  unfold send. change (String.append "" (String c "")) with (String c "").
  destruct (_get_match tbl (String c "")) as [m|] eqn:Hm.
  - right. split; [reflexivity|]. eexists. apply (vt100_resume_match tbl _ c "" m Hm).
  - destruct (is_prefix_of_longer_match tbl (String c "")) eqn:Hp.
    + left. split; [reflexivity|]. apply (vt100_resume_hangs tbl c "" Hm Hp).
    + right. split; [reflexivity|]. eexists. apply (vt100_resume_literal tbl n c Hm Hp).
Qed.

(** [feed] on a new parser returns exactly when no character of the data
    is without a match while beginning a longer sequence; it then leaves the
    buffer empty. A character that has no match and begins a longer
    sequence makes the coroutine loop without reaching its [yield]. *)
Theorem vt100_feed_returns_iff (n : nat) (d : string) :
  (exists keys, feed tbl (S (S n)) start d = Some (keys, ""))
  <-> Forall (fun c =>
                match _get_match tbl (String c "") with
                | Some _ => false
                | None => is_prefix_of_longer_match tbl (String c "")
                end = false)
             (list_ascii_of_string d).
Proof.
  unfold start. induction d as [|c d IH]; cbn [list_ascii_of_string feed].
  - split; [constructor | intros _; eexists; reflexivity].
  - destruct (vt100_send_stalls_or_returns n c) as [[Hs E]|[Hs [k1 E]]]; rewrite E.
    + split.
      * intros [keys H]. discriminate H.
      * intros H. inversion H as [|? ? Hc _]; subst. congruence.
    + cbn. split.
      * intros [keys H]. constructor; [exact Hs|]. apply IH.
        destruct (feed tbl (S (S n)) "" d) as [[k2 p2]|] eqn:E2; [|discriminate H].
        apply vt100_feed_from_empty in E2 as E3. destruct E3 as [-> _].
        exists k2. reflexivity.
      * intros H. inversion H as [|? ? _ Hd]; subst.
        apply IH in Hd. destruct Hd as [k2 E2]. rewrite E2. cbn.
        eexists. reflexivity.
Qed.

End Vt100More.

Section Vt100MoreWitness.
Import PyStr Vt100.
Local Open Scope string_scope.

(** With the cursor-up sequence bound and ESC not, the text ["ab"] is fed
    and the parser returns. *)
Lemma vt100_feed_returns_iff_witness :
  exists keys, feed table_up 2 start "ab" = Some (keys, "").
Proof.
  apply (proj2 (vt100_feed_returns_iff table_up 0 "ab")).
  repeat constructor.
Defined.

End Vt100MoreWitness.

(** ** The two ends of the bridge *)

Section AsyncGeneratorMore.
Import Async_generator.
Context {T : Type}.

(** The loop of the producer keeps the size of the queue; it ends either
    with every item appended or on a full queue with [NameError]. *)
Lemma producer_loop_outcome (items : list T) : forall q : Queue T,
  maxsize (fst (producer_loop q items)) = maxsize q
  /\ (snd (producer_loop q items) = None
      /\ queue (fst (producer_loop q items)) = (queue q ++ map Item items)%list
      \/ snd (producer_loop q items) = Some Py.NameError
         /\ full (fst (producer_loop q items)) = true).
Proof.
  induction items as [|item items IH]; intros q.
  - cbn. split; [reflexivity|]. left. rewrite app_nil_r. split; reflexivity.
  - cbn [producer_loop]. unfold put_nowait. destruct (full q) eqn:F.
    + cbn. split; [reflexivity|]. right. split; [reflexivity | exact F].
    + destruct (IH (mkQueue (maxsize q) (queue q ++ [Item item]))) as [Hm H].
      split; [exact Hm|]. cbn [queue] in H. rewrite <- app_assoc in H. exact H.
Qed.

(** [producer] never ends by raising. When it returns, the queue holds
    what it held, then the items in order, then [_Done] once at the end;
    otherwise it is blocked on a full queue. *)
Theorem bridge_producer_returns_or_blocks (q : Queue T) (items : list T) :
  match snd (producer q items) with
  | Returns =>
      queue (fst (producer q items)) = (queue q ++ map Item items ++ [_Done])%list
  | Blocks => full (fst (producer q items)) = true
  | Raises _ => False
  end.
Proof.
  unfold producer.
  destruct (producer_loop_outcome items q) as [_ H].
  destruct (producer_loop q items) as [q' exc]. cbn [fst snd] in H.
  unfold put_nowait. destruct (full q') eqn:F; cbn [fst snd]; [exact F|].
  destruct H as [[-> Hq]|[_ Hf]]; [|congruence].
  cbn [queue]. rewrite Hq, <- app_assoc. reflexivity.
Qed.

(** The consumer yields the items that precede the first [_Done] and ends
    there; on a queue without [_Done] it yields every item and then waits
    for ever. *)
Theorem bridge_consumer_stops_at_done (items : list T) (rest : list (entry T)) :
  consumer (map Item items ++ _Done :: rest) = (items, Returns)
  /\ consumer (map Item items) = (items, Blocks).
Proof.
  split; induction items as [|item items IH]; try reflexivity;
    cbn; cbn in IH; rewrite IH; reflexivity.
Qed.

End AsyncGeneratorMore.
